(** * Legal-Analyser front end: a shallow embedding of the client logic

  The React components of the front end are embedded as Rocq definitions:
  the pure helper functions as functions, the [async] event handlers as
  tasks that update the component state and suspend at every network
  request, and the browser as a scheduler that invokes handlers and
  delivers responses in any order.

  Conventions.
  - A JavaScript string is its sequence of UTF-16 code units.
  - A JavaScript number is an extended rational: finite values are exact,
    the two infinities and NaN are explicit.  Rounding to binary64 and the
    sign of zero are not represented; no function below depends on them
    beyond comparisons against decimal constants.
  - CSS class names returned by helpers are literal text. *)

From Corelib Require Import PrimFloat.
From Stdlib Require Import List String Ascii Bool NArith ZArith QArith Lia.
From Stdlib Require Import Permutation Sorted.
Import ListNotations.

Set Implicit Arguments.

(* ================================================================== *)
(** ** JavaScript strings *)

Module JsString.

Definition code_unit := N.
Definition t := list code_unit.

(** The code units of an ASCII literal of the source. *)
Definition lit (s : string) : t := map N_of_ascii (list_ascii_of_string s).

Fixpoint eqb (a b : t) : bool :=
  match a, b with
  | [], [] => true
  | x :: a', y :: b' => N.eqb x y && eqb a' b'
  | _, _ => false
  end.

(** WhiteSpace and LineTerminator code points, the ones
    [String.prototype.trim] strips. *)
Definition is_white (u : code_unit) : bool :=
  (N.eqb u 9 || N.eqb u 10 || N.eqb u 11 || N.eqb u 12 || N.eqb u 13
   || N.eqb u 32 || N.eqb u 160 || N.eqb u 5760
   || (N.leb 8192 u && N.leb u 8202)
   || N.eqb u 8232 || N.eqb u 8233 || N.eqb u 8239 || N.eqb u 8287
   || N.eqb u 12288 || N.eqb u 65279)%N.

Fixpoint trimStart (s : t) : t :=
  match s with
  | [] => []
  | u :: s' => if is_white u then trimStart s' else s
  end.

Definition trimEnd (s : t) : t := rev (trimStart (rev s)).

(** [s.trim()] *)
Definition trim (s : t) : t := trimEnd (trimStart s).

(** [s.substring(start, end)]: both indices are clamped to
    [0 .. s.length] and swapped when out of order. *)
Definition clamp (len : nat) (i : Z) : nat :=
  if (i <? 0)%Z then 0%nat else Nat.min (Z.to_nat i) len.

Definition substring (s : t) (start end_ : Z) : t :=
  let a := clamp (List.length s) start in
  let b := clamp (List.length s) end_ in
  let lo := Nat.min a b in
  let hi := Nat.max a b in
  firstn (hi - lo) (skipn lo s).

(** A string is falsy exactly when it is empty. *)
Definition truthy (s : t) : bool :=
  match s with [] => false | _ :: _ => true end.

End JsString.

Definition js_string : Type := JsString.t.
Definition lit : string -> js_string := JsString.lit.

(* ================================================================== *)
(** ** JavaScript numbers *)

Module Number.

Inductive t : Type :=
| Fin (q : Q)
| PosInf
| NegInf
| NaN.

Definition zero : t := Fin 0.

Definition isNaN (a : t) : bool :=
  match a with NaN => true | _ => false end.

Definition isFinite (a : t) : bool :=
  match a with Fin _ => true | _ => false end.

(** [a >= b]; every comparison with NaN is false. *)
Definition ge (a b : t) : bool :=
  match a, b with
  | Fin x, Fin y => Qle_bool y x
  | Fin _, NegInf => true
  | Fin _, PosInf => false
  | PosInf, (Fin _ | PosInf | NegInf) => true
  | NegInf, NegInf => true
  | NegInf, (Fin _ | PosInf) => false
  | NaN, _ => false
  | _, NaN => false
  end.

(** [a > b] *)
Definition gt (a b : t) : bool :=
  match a, b with
  | Fin x, Fin y => negb (Qle_bool x y)
  | Fin _, NegInf => true
  | Fin _, PosInf => false
  | PosInf, (Fin _ | NegInf) => true
  | PosInf, PosInf => false
  | NegInf, _ => false
  | NaN, _ => false
  | _, NaN => false
  end.

(** [a === b] on numbers. *)
Definition strict_eq (a b : t) : bool :=
  match a, b with
  | Fin x, Fin y => Qeq_bool x y
  | PosInf, PosInf => true
  | NegInf, NegInf => true
  | _, _ => false
  end.

Definition neg (a : t) : t :=
  match a with
  | Fin x => Fin (- x)
  | PosInf => NegInf
  | NegInf => PosInf
  | NaN => NaN
  end.

Definition add (a b : t) : t :=
  match a, b with
  | NaN, _ | _, NaN => NaN
  | Fin x, Fin y => Fin (x + y)
  | PosInf, NegInf | NegInf, PosInf => NaN
  | PosInf, _ | _, PosInf => PosInf
  | NegInf, _ | _, NegInf => NegInf
  end.

Definition sub (a b : t) : t := add a (neg b).

(** The sign of a finite value: [Lt], [Eq] or [Gt] against zero. *)
Definition sign (x : Q) : comparison := (x ?= 0)%Q.

Definition mul (a b : t) : t :=
  match a, b with
  | NaN, _ | _, NaN => NaN
  | Fin x, Fin y => Fin (x * y)
  | Fin x, PosInf | PosInf, Fin x =>
      match sign x with Eq => NaN | Gt => PosInf | Lt => NegInf end
  | Fin x, NegInf | NegInf, Fin x =>
      match sign x with Eq => NaN | Gt => NegInf | Lt => PosInf end
  | PosInf, PosInf | NegInf, NegInf => PosInf
  | PosInf, NegInf | NegInf, PosInf => NegInf
  end.

(** [a / b]: zero over zero and infinity over infinity are NaN, a
    non-zero finite value over zero is an infinity. *)
Definition div (a b : t) : t :=
  match a, b with
  | NaN, _ | _, NaN => NaN
  | Fin x, Fin y =>
      match sign y with
      | Eq => match sign x with Eq => NaN | Gt => PosInf | Lt => NegInf end
      | _ => Fin (x / y)
      end
  | Fin _, (PosInf | NegInf) => Fin 0
  | PosInf, Fin y => match sign y with Lt => NegInf | _ => PosInf end
  | NegInf, Fin y => match sign y with Lt => PosInf | _ => NegInf end
  | (PosInf | NegInf), (PosInf | NegInf) => NaN
  end.

(** Decimal literals of the source. *)
Definition dec (numerator : Z) (denominator : positive) : t :=
  Fin (numerator # denominator).

End Number.

Definition number : Type := Number.t.

(* ================================================================== *)
(** ** JavaScript values *)

(** What [JSON.parse] produces, together with [undefined].  The fields of
    an object are its own properties in insertion order, one entry per
    key. *)
#[local] Set Warnings "-register-all".
Inductive value : Type :=
| Undefined
| Null
| Bool (b : bool)
| Num (n : number)
| Str (s : js_string)
| Arr (items : list value)
| Obj (fields : list (js_string * value)).

(** A thrown value; handlers only ever read its [message]. *)
Inductive js_error : Type :=
| Error (message : js_string).

Definition message (e : js_error) : js_string :=
  match e with Error m => m end.

Module Js.

(** ToBoolean *)
Definition truthy (v : value) : bool :=
  match v with
  | Undefined | Null => false
  | Bool b => b
  | Num (Number.Fin q) => negb (Qeq_bool q 0)
  | Num Number.NaN => false
  | Num _ => true
  | Str s => JsString.truthy s
  | Arr _ | Obj _ => true
  end.

Fixpoint lookup (k : js_string) (fields : list (js_string * value)) : value :=
  match fields with
  | [] => Undefined
  | (k', v) :: rest => if JsString.eqb k k' then v else lookup k rest
  end.

(** The message of the TypeError raised by a property read on [null] or
    [undefined] (V8's wording). *)
Definition cannot_read (what : string) (k : js_string) : js_error :=
  Error (lit "Cannot read properties of " ++ lit what
         ++ lit " (reading '" ++ k ++ lit "')").

(** [v.k] for a property name [k] that no prototype defines. *)
Definition get (v : value) (k : js_string) : js_error + value :=
  match v with
  | Undefined => inl (cannot_read "undefined" k)
  | Null => inl (cannot_read "null" k)
  | Obj fields => inr (lookup k fields)
  | Bool _ | Num _ | Str _ | Arr _ => inr Undefined
  end.

(** [v?.k] *)
Definition get_opt (v : value) (k : js_string) : value :=
  match get v k with
  | inl _ => Undefined
  | inr x => x
  end.

(** [a || b] *)
Definition or (a b : value) : value := if truthy a then a else b.

(** [s || t] on strings. *)
Definition or_str (a b : js_string) : js_string :=
  if JsString.truthy a then a else b.

End Js.

(* ================================================================== *)
(** ** The network *)

Record File : Type := { file_name : js_string; file_bytes : list N }.

(** The JSON body of [POST /api/chat/ask]. *)
Record chat_body : Type := {
  document_id : js_string;
  question : js_string;
  document_text : js_string;
  analysis_summary : value
}.

(** One constructor per [fetch] call of the front end.  A path segment
    built by a template literal is kept as the interpolated value. *)
Inductive request : Type :=
| PostUpload (file : File)
| PostAnalyze (document_id : value)
| GetClassify (documentId : js_string)
| PostSimilarClauses (document_id clause_text : js_string)
| PostChatAsk (body : chat_body)
| PostCompare (documentId1 documentId2 : js_string).

(** A response: its status line and what [text()] and [json()] resolve
    to; [json()] rejects with a SyntaxError on a body that is not JSON. *)
Record response : Type := {
  status : N;
  text : js_string;
  json : js_error + value
}.

(** [response.ok] *)
Definition ok (r : response) : bool :=
  (N.leb 200 (status r) && N.leb (status r) 299)%N.

(** How the promise returned by [fetch] settles. *)
Inductive reply : Type :=
| Rejected (e : js_error)
| Fulfilled (r : response).

(* ================================================================== *)
(** ** Asynchronous handlers *)

(** The body of an [async] handler over a component state [S]: state
    setters, [new Date()], [console.error], and [await fetch(..)], where
    the handler is suspended until the browser delivers a reply.  Reading
    the body of a delivered response does not suspend again. *)
Inductive task (S : Type) : Type :=
| Return
| SetState (f : S -> S) (k : task S)
| NewDate (k : N -> task S)
| ConsoleError (label : string) (e : js_error) (k : task S)
| Fetch (r : request) (k : reply -> task S).

Arguments Return {S}.

Inductive wire_event : Type :=
| Sent (r : request)
| Got (r : request) (answer : reply).

(** A mounted component in its browser tab: the state last rendered, the
    suspended handlers, the network log and the console. *)
Record browser (S : Type) : Type := {
  view : S;
  inflight : list (request * (reply -> task S));
  wire : list wire_event;
  console : list (string * js_error)
}.

Definition mount {S : Type} (initial : S) : browser S :=
  {| view := initial; inflight := []; wire := []; console := [] |}.

(** Runs a task at time [now] until it returns or suspends. *)
Fixpoint run {S : Type} (now : N) (t : task S) (b : browser S) : browser S :=
  match t with
  | Return => b
  | SetState f k =>
      run now k {| view := f (view b); inflight := inflight b;
                   wire := wire b; console := console b |}
  | NewDate k => run now (k now) b
  | ConsoleError label e k =>
      run now k {| view := view b; inflight := inflight b;
                   wire := wire b; console := console b ++ [(label, e)] |}
  | Fetch r k =>
      {| view := view b; inflight := inflight b ++ [(r, k)];
         wire := wire b ++ [Sent r]; console := console b |}
  end.

Definition remove_nth {A : Type} (i : nat) (l : list A) : list A :=
  firstn i l ++ skipn (S i) l.

(** What can happen to a component: the user triggers one of its event
    handlers, or the reply to the [i]-th outstanding request arrives.
    A handler is a closure over the state of the render it belongs to. *)
Inductive event (U : Type) : Type :=
| User (u : U)
| Network (i : nat) (answer : reply).

Arguments Network {U}.

Section Scheduler.

Variables S U : Type.
Variable handler : U -> S -> task S.

Definition step (now : N) (e : event U) (b : browser S) : browser S :=
  match e with
  | User u => run now (handler u (view b)) b
  | Network i answer =>
      match nth_error (inflight b) i with
      | None => b
      | Some (r, k) =>
          run now (k answer)
            {| view := view b; inflight := remove_nth i (inflight b);
               wire := wire b ++ [Got r answer]; console := console b |}
      end
  end.

Fixpoint exec (trace : list (N * event U)) (b : browser S) : browser S :=
  match trace with
  | [] => b
  | (now, e) :: rest => exec rest (step now e b)
  end.

(** A user event stands for a call of its handler.  Whether the page as
    rendered lets the user make that call is told by [enabled]: the
    control is on the page and not disabled.  A run is offered by the
    page when each of its user events is enabled where it happens. *)
Variable enabled : U -> S -> bool.

Fixpoint offered (trace : list (N * event U)) (b : browser S) : Prop :=
  match trace with
  | [] => True
  | (now, e) :: rest =>
      match e with
      | User u => enabled u (view b) = true
      | Network _ _ => True
      end
      /\ offered rest (step now e b)
  end.

End Scheduler.

(* ================================================================== *)
(** * Pure helpers of the views *)

(** ** DocumentComparison: score bands of the comparison view *)

Module DocumentComparison.

#[local] Open Scope string_scope.

Definition getColorForScore (score : number) : string :=
  if Number.ge score (Number.dec 9 10) then "from-green-500 to-emerald-600"
  else if Number.ge score (Number.dec 75 100) then "from-blue-500 to-cyan-600"
  else if Number.ge score (Number.dec 6 10) then "from-yellow-500 to-orange-500"
  else if Number.ge score (Number.dec 4 10) then "from-orange-500 to-red-500"
  else "from-red-500 to-pink-600".

(** The rows of the "Understanding the Score" guide the view prints under
    the score, top to bottom: the range and the label of each band. *)
Definition interpretationGuide : list (string * string) :=
  [ ("90-100%:", "Nearly identical documents");
    ("75-89%:", "Very similar structure and content");
    ("60-74%:", "Moderately similar, same type");
    ("40-59%:", "Somewhat similar clauses");
    ("0-39%:", "Different documents") ].

(** The five gradients [getColorForScore] returns, highest band first. *)
Definition gradients : list string :=
  [ "from-green-500 to-emerald-600";
    "from-blue-500 to-cyan-600";
    "from-yellow-500 to-orange-500";
    "from-orange-500 to-red-500";
    "from-red-500 to-pink-600" ].

(** Each gradient beside the guide row of the same rank. *)
Definition scoreBands : list (string * string) :=
  combine gradients (map snd interpretationGuide).

Fixpoint assoc (k : string) (table : list (string * string)) : option string :=
  match table with
  | [] => None
  | (k', v) :: rest => if String.eqb k k' then Some v else assoc k rest
  end.

(** The band of a score, named by its label.  The view has no function
    from a score to a label (the sentence it prints under the score comes
    from the server); the band is the one [getColorForScore] colours the
    score as, and its label the guide row of the same rank. *)
Definition interpret (score : number) : option string :=
  assoc (getColorForScore score) scoreBands.

End DocumentComparison.

(** ** The score bands on binary64

    The two cascades with the thresholds as the engine holds them, IEEE
    754 doubles; they serve to check the exact model at the boundaries. *)

Module Binary64.

#[local] Open Scope string_scope.
#[local] Set Warnings "-inexact-float".

Definition getColorForScore (score : float) : string :=
  if PrimFloat.leb 0.9%float score then "from-green-500 to-emerald-600"
  else if PrimFloat.leb 0.75%float score then "from-blue-500 to-cyan-600"
  else if PrimFloat.leb 0.6%float score then "from-yellow-500 to-orange-500"
  else if PrimFloat.leb 0.4%float score then "from-orange-500 to-red-500"
  else "from-red-500 to-pink-600".

Definition getSimilarityColor (sim : float) : string :=
  if PrimFloat.leb 0.9%float sim
  then "bg-green-100 border-green-400 text-green-800"
  else if PrimFloat.leb 0.75%float sim
  then "bg-blue-100 border-blue-400 text-blue-800"
  else if PrimFloat.leb 0.6%float sim
  then "bg-yellow-100 border-yellow-400 text-yellow-800"
  else "bg-gray-100 border-gray-400 text-gray-800".

(** The scores the band claims name, as decimals and as doubles. *)
Definition boundaryScores : list (number * float) :=
  [ (Number.dec 1 1, 1.0%float);
    (Number.dec 90 100, 0.90%float);
    (Number.dec 8999 10000, 0.8999%float);
    (Number.dec 75 100, 0.75%float);
    (Number.dec 60 100, 0.60%float);
    (Number.dec 5 10, 0.5%float);
    (Number.dec 40 100, 0.40%float);
    (Number.dec 3 10, 0.3%float);
    (Number.dec 0 1, 0.0%float) ].

End Binary64.

(** ** RiskHeatmap: share of each severity bucket *)

Module RiskHeatmap.

Record risk_matrix : Type := {
  Critical : number;
  High : number;
  Medium : number;
  Low : number
}.

(** [data.risk_matrix || { Critical: 0, High: 0, Medium: 0, Low: 0 }] *)
Definition matrix (risk_matrix_prop : option risk_matrix) : risk_matrix :=
  match risk_matrix_prop with
  | Some m => m
  | None => {| Critical := Number.zero; High := Number.zero;
               Medium := Number.zero; Low := Number.zero |}
  end.

Definition total (m : risk_matrix) : number :=
  Number.add (Number.add (Number.add (Critical m) (High m)) (Medium m)) (Low m).

Definition getPercentage (m : risk_matrix) (count : number) : number :=
  if Number.strict_eq (total m) Number.zero then Number.zero
  else Number.mul (Number.div count (total m)) (Number.Fin 100).

(** [Math.max(15, p)], the width of a bucket's bar. *)
Definition barWidth (p : number) : number :=
  if Number.isNaN p then Number.NaN
  else if Number.ge p (Number.Fin 15) then p else Number.Fin 15.

End RiskHeatmap.

(** ** Array.prototype.sort *)

Module JsArray.

Section Sort.

Variable A : Type.
(** The comparator; a positive result puts its second argument first, and
    NaN counts as zero. *)
Variable comparefn : A -> A -> number.

Fixpoint insert (x : A) (sorted : list A) : list A :=
  match sorted with
  | [] => [x]
  | y :: rest =>
      if Number.gt (comparefn x y) Number.zero
      then y :: insert x rest
      else x :: sorted
  end.

(** [l.sort(comparefn)]: the stable sort the language requires.  For a
    consistent comparator every conforming engine returns this list. *)
Definition sort (l : list A) : list A := fold_right insert [] l.

End Sort.

End JsArray.

(* ================================================================== *)
(** * Components *)

(** ** AnalyzePage: upload, then analyze *)

Module AnalyzePage.

Record state : Type := {
  file : option File;
  uploading : bool;
  analyzing : bool;
  result : value;
  error : js_string
}.

Definition initial : state :=
  {| file := None; uploading := false; analyzing := false;
     result := Null; error := [] |}.

Definition setFile (v : option File) (s : state) : state :=
  {| file := v; uploading := uploading s; analyzing := analyzing s;
     result := result s; error := error s |}.

Definition setUploading (v : bool) (s : state) : state :=
  {| file := file s; uploading := v; analyzing := analyzing s;
     result := result s; error := error s |}.

Definition setAnalyzing (v : bool) (s : state) : state :=
  {| file := file s; uploading := uploading s; analyzing := v;
     result := result s; error := error s |}.

Definition setResult (v : value) (s : state) : state :=
  {| file := file s; uploading := uploading s; analyzing := analyzing s;
     result := v; error := error s |}.

Definition setError (v : js_string) (s : state) : state :=
  {| file := file s; uploading := uploading s; analyzing := analyzing s;
     result := result s; error := v |}.

Definition handleFileChange (files : list File) : task state :=
  match files with
  | f :: _ => SetState (setFile (Some f)) (SetState (setError []) Return)
  | [] => Return
  end.

(** The [catch] block of [handleUploadAndAnalyze]. *)
Definition catch (err : js_error) : task state :=
  SetState (setError (Js.or_str (message err) (lit "Something went wrong")))
    (SetState (setUploading false)
      (SetState (setAnalyzing false) Return)).

(** The rest of the [try] block once the analyze request has settled. *)
Definition afterAnalyze (analyzeRes : reply) : task state :=
  match analyzeRes with
  | Rejected e => catch e
  | Fulfilled analyzeRes =>
      if negb (ok analyzeRes)
      then catch (Error (lit "Analysis failed: " ++ text analyzeRes))
      else
        match json analyzeRes with
        | inl e => catch e
        | inr analyzeData =>
            SetState (setResult analyzeData)
              (SetState (setAnalyzing false) Return)
        end
  end.

(** The rest of the [try] block once the upload request has settled. *)
Definition afterUpload (uploadRes : reply) : task state :=
  match uploadRes with
  | Rejected e => catch e
  | Fulfilled uploadRes =>
      if negb (ok uploadRes)
      then catch (Error (lit "Upload failed"))
      else
        match json uploadRes with
        | inl e => catch e
        | inr uploadData =>
            SetState (setUploading false)
              match Js.get uploadData (lit "document_id") with
              | inl e => catch e
              | inr document_id => Fetch (PostAnalyze document_id) afterAnalyze
              end
        end
  end.

Definition handleUploadAndAnalyze (closure : state) : task state :=
  match file closure with
  | None => SetState (setError (lit "Please select a file")) Return
  | Some f =>
      SetState (setUploading true)
        (SetState (setAnalyzing true)
          (SetState (setError [])
            (Fetch (PostUpload f) afterUpload)))
  end.

(** The "Analyze Another Document" button. *)
Definition analyzeAnother : task state :=
  SetState (setResult Null) (SetState (setFile None) Return).

Inductive ui : Type :=
| ChooseFile (files : list File)
| ClickAnalyze
| ClickAnalyzeAnother.

Definition handler (u : ui) (closure : state) : task state :=
  match u with
  | ChooseFile files => handleFileChange files
  | ClickAnalyze => handleUploadAndAnalyze closure
  | ClickAnalyzeAnother => analyzeAnother
  end.

(** The upload section is rendered while there is no result; its file
    input and its button are disabled during a workflow, and the button
    is there only once a file is chosen. *)
Definition enabled (u : ui) (s : state) : bool :=
  match u with
  | ChooseFile _ =>
      negb (Js.truthy (result s)) && negb (uploading s || analyzing s)
  | ClickAnalyze =>
      negb (Js.truthy (result s))
      && match file s with Some _ => true | None => false end
      && negb (uploading s || analyzing s)
  | ClickAnalyzeAnother => Js.truthy (result s)
  end.

End AnalyzePage.

(** ** SemanticClauseSearch *)

Module SemanticClauseSearch.

Record state : Type := {
  searchQuery : js_string;
  results : value;
  loading : bool
}.

Definition initial : state :=
  {| searchQuery := []; results := Null; loading := false |}.

Definition setSearchQuery (v : js_string) (s : state) : state :=
  {| searchQuery := v; results := results s; loading := loading s |}.

Definition setResults (v : value) (s : state) : state :=
  {| searchQuery := searchQuery s; results := v; loading := loading s |}.

Definition setLoading (v : bool) (s : state) : state :=
  {| searchQuery := searchQuery s; results := results s; loading := v |}.

(** The [finally] block. *)
Definition finally : task state := SetState (setLoading false) Return.

(** The rest of [handleSearch] once the request has settled. *)
Definition afterSearch (response : reply) : task state :=
  match response with
  | Rejected e => ConsoleError "Search error:" e finally
  | Fulfilled response =>
      match json response with
      | inl e => ConsoleError "Search error:" e finally
      | inr data => SetState (setResults data) finally
      end
  end.

Definition handleSearch (documentId : js_string) (closure : state) : task state :=
  if negb (JsString.truthy (JsString.trim (searchQuery closure)))
  then Return
  else
    SetState (setLoading true)
      (Fetch (PostSimilarClauses documentId (searchQuery closure)) afterSearch).

(** [getSimilarityColor], the score bands of the search view. *)
Definition getSimilarityColor (sim : number) : string :=
  if Number.ge sim (Number.dec 9 10)
  then "bg-green-100 border-green-400 text-green-800"
  else if Number.ge sim (Number.dec 75 100)
  then "bg-blue-100 border-blue-400 text-blue-800"
  else if Number.ge sim (Number.dec 6 10)
  then "bg-yellow-100 border-yellow-400 text-yellow-800"
  else "bg-gray-100 border-gray-400 text-gray-800".

(** The result panel is rendered when [results && !loading]. *)
Definition displayed (s : state) : option value :=
  if Js.truthy (results s) && negb (loading s) then Some (results s) else None.

Fixpoint withKeys {A : Type} (idx : nat) (l : list A) : list (nat * A) :=
  match l with
  | [] => []
  | x :: rest => (idx, x) :: withKeys (S idx) rest
  end.

(** [results.matches?.map((match, idx) => ..)]: one card per match, keyed
    by its index. *)
Definition matchCards (results : value) : list (nat * value) :=
  match Js.get_opt results (lit "matches") with
  | Arr items => withKeys 0 items
  | _ => []
  end.

Inductive ui : Type :=
| TypeQuery (text : js_string)
| Submit
| ClickExample (example : js_string).

(** An example button calls [setSearchQuery(example)] and then the
    [handleSearch] of the current render. *)
Definition handler (documentId : js_string) (u : ui) (closure : state) : task state :=
  match u with
  | TypeQuery q => SetState (setSearchQuery q) Return
  | Submit => handleSearch documentId closure
  | ClickExample example =>
      SetState (setSearchQuery example) (handleSearch documentId closure)
  end.

(** The form submits through its button, which is disabled while loading
    or on a blank query; the example buttons are rendered while there is
    neither a result nor a search under way. *)
Definition enabled (u : ui) (s : state) : bool :=
  match u with
  | TypeQuery _ => true
  | Submit => negb (loading s || negb (JsString.truthy (JsString.trim (searchQuery s))))
  | ClickExample _ => negb (Js.truthy (results s)) && negb (loading s)
  end.

End SemanticClauseSearch.

(** ** DocumentChatbot and FloatingChatbot

    The two chat components share [handleSend] word for word except for
    the greeting and the apology of the [catch] block. *)

Module Chatbot.

Inductive component : Type :=
| DocumentChatbot
| FloatingChatbot.

Inductive role : Type :=
| user
| assistant.

Record Message : Type := {
  msg_role : role;
  content : value;
  timestamp : N
}.

Record props : Type := {
  documentId : js_string;
  documentText : js_string;
  analysis : value
}.

Record state : Type := {
  isOpen : bool; (* FloatingChatbot only *)
  messages : list Message;
  input : js_string;
  loading : bool
}.

Definition greeting (c : component) : js_string :=
  match c with
  | DocumentChatbot =>
      lit "Hi! I'm your AI legal assistant. Ask me anything about this document, its clauses, risks, or compliance requirements."
  | FloatingChatbot => lit "Hi! Ask me anything about this document."
  end.

(** The state of a freshly mounted component, created at time [now]. *)
Definition initial (c : component) (now : N) : state :=
  {| isOpen := false;
     messages := [ {| msg_role := assistant; content := Str (greeting c);
                      timestamp := now |} ];
     input := [];
     loading := false |}.

Definition setIsOpen (v : bool) (s : state) : state :=
  {| isOpen := v; messages := messages s; input := input s;
     loading := loading s |}.

Definition setMessages (f : list Message -> list Message) (s : state) : state :=
  {| isOpen := isOpen s; messages := f (messages s); input := input s;
     loading := loading s |}.

Definition setInput (v : js_string) (s : state) : state :=
  {| isOpen := isOpen s; messages := messages s; input := v;
     loading := loading s |}.

Definition setLoading (v : bool) (s : state) : state :=
  {| isOpen := isOpen s; messages := messages s; input := input s;
     loading := v |}.

(** The apology the [catch] block appends. *)
Definition errorText (c : component) : js_string :=
  match c with
  | DocumentChatbot =>
      lit "Sorry, there was an error processing your question. Please try again."
  | FloatingChatbot => lit "Sorry, there was an error. Please try again."
  end.

(** The apology that stands in for a missing or empty answer. *)
Definition noAnswerText : js_string :=
  lit "Sorry, I couldn't process that question.".

Definition finally : task state := SetState (setLoading false) Return.

(** The [catch] block followed by the [finally] block. *)
Definition catch (c : component) : js_error -> task state :=
  fun e =>
    ConsoleError "Chat error:" e
      (NewDate (fun now =>
         let errorMessage :=
           {| msg_role := assistant; content := Str (errorText c);
              timestamp := now |} in
         SetState (setMessages (fun prev => prev ++ [errorMessage])) finally)).

(** The rest of [handleSend] once the request has settled. *)
Definition afterAsk (c : component) (response : reply) : task state :=
  match response with
  | Rejected e => catch c e
  | Fulfilled response =>
      match json response with
      | inl e => catch c e
      | inr data =>
          match Js.get data (lit "answer") with
          | inl e => catch c e
          | inr answer =>
              NewDate (fun now =>
                let assistantMessage :=
                  {| msg_role := assistant;
                     content := Js.or answer (Str noAnswerText);
                     timestamp := now |} in
                SetState (setMessages (fun prev => prev ++ [assistantMessage]))
                  finally)
          end
      end
  end.

(** [analysis?.ai_summary?.summary || ''] *)
Definition analysisSummary (analysis : value) : value :=
  Js.or (Js.get_opt (Js.get_opt analysis (lit "ai_summary")) (lit "summary"))
        (Str []).

Definition askBody (p : props) (question : js_string) : chat_body :=
  {| document_id := documentId p;
     question := question;
     document_text := JsString.substring (documentText p) 0 3000;
     analysis_summary := analysisSummary (analysis p) |}.

Definition handleSend (c : component) (p : props) (closure : state) : task state :=
  if negb (JsString.truthy (JsString.trim (input closure))) || loading closure
  then Return
  else
    NewDate (fun now =>
      let userMessage :=
        {| msg_role := user; content := Str (input closure);
           timestamp := now |} in
      SetState (setMessages (fun _ => messages closure ++ [userMessage]))
        (SetState (setInput [])
          (SetState (setLoading true)
            (Fetch (PostChatAsk (askBody p (input closure))) (afterAsk c))))).

Inductive ui : Type :=
| TypeInput (text : js_string)
| ClickSuggestion (q : js_string)
| Send
| Toggle
| Close.

(** [Send] is the send button or the Enter key; [Toggle] is the floating
    button and [Close] the cross of the chat window. *)
Definition handler (c : component) (p : props) (u : ui) (closure : state) : task state :=
  match u with
  | TypeInput q => SetState (setInput q) Return
  | ClickSuggestion q => SetState (setInput q) Return
  | Send => handleSend c p closure
  | Toggle => SetState (setIsOpen (negb (isOpen closure))) Return
  | Close => SetState (setIsOpen false) Return
  end.

(** The chat window of the floating component is rendered while open.
    The input is disabled while an ask is pending; Enter in the input
    sends, so sending is possible whenever typing is.  The suggestions
    are rendered while the greeting is the only message. *)
Definition window (c : component) (s : state) : bool :=
  match c with
  | DocumentChatbot => true
  | FloatingChatbot => isOpen s
  end.

Definition enabled (c : component) (u : ui) (s : state) : bool :=
  match u with
  | TypeInput _ => window c s && negb (loading s)
  | ClickSuggestion _ => window c s && Nat.eqb (List.length (messages s)) 1
  | Send => window c s && negb (loading s)
  | Toggle => match c with FloatingChatbot => true | DocumentChatbot => false end
  | Close => match c with FloatingChatbot => isOpen s | DocumentChatbot => false end
  end.

End Chatbot.

(** ** DocumentClassification *)

Module DocumentClassification.

Record state : Type := {
  classification : value;
  loading : bool
}.

Definition initial : state := {| classification := Null; loading := false |}.

Definition setClassification (v : value) (s : state) : state :=
  {| classification := v; loading := loading s |}.

Definition setLoading (v : bool) (s : state) : state :=
  {| classification := classification s; loading := v |}.

Definition finally : task state := SetState (setLoading false) Return.

Definition afterClassify (response : reply) : task state :=
  match response with
  | Rejected e => ConsoleError "Classification error:" e finally
  | Fulfilled response =>
      match json response with
      | inl e => ConsoleError "Classification error:" e finally
      | inr data => SetState (setClassification data) finally
      end
  end.

Definition fetchClassification (documentId : js_string) : task state :=
  SetState (setLoading true) (Fetch (GetClassify documentId) afterClassify).

(** [Object.entries] of a [Record<string, number>]: [None] when the value
    is not an object whose every property is a number. *)
Fixpoint numberEntries (fields : list (js_string * value)) : option (list (js_string * number)) :=
  match fields with
  | [] => Some []
  | (k, Num n) :: rest =>
      match numberEntries rest with
      | Some l => Some ((k, n) :: l)
      | None => None
      end
  | _ :: _ => None
  end.

Definition entries (classification : value) : option (list (js_string * number)) :=
  match classification with
  | Obj fields => numberEntries fields
  | _ => None
  end.

(** [([, a], [, b]) => b - a] *)
Definition byScoreDescending (x y : js_string * number) : number :=
  Number.sub (snd y) (snd x).

(** The "All Classifications" rows, top to bottom:
    [Object.entries(..).sort(([, a], [, b]) => b - a)]. *)
Definition rows (l : list (js_string * number)) : list (js_string * number) :=
  JsArray.sort byScoreDescending l.

(** The rows rendered for a classification payload of the declared type. *)
Definition allClassifications (data : value) : option (list (js_string * number)) :=
  match Js.get data (lit "classification") with
  | inr c => option_map rows (entries c)
  | inl _ => None
  end.

Inductive ui : Type :=
| Mounted (documentId : js_string).

(** The effect runs [fetchClassification] when [documentId] is truthy. *)
Definition handler (u : ui) (closure : state) : task state :=
  match u with
  | Mounted documentId =>
      if JsString.truthy documentId then fetchClassification documentId
      else Return
  end.

End DocumentClassification.

(** ** DocumentComparison: the request of the comparison view *)

Module Comparison.

Record state : Type := {
  comparison : value;
  loading : bool
}.

Definition initial : state := {| comparison := Null; loading := false |}.

Definition setComparison (v : value) (s : state) : state :=
  {| comparison := v; loading := loading s |}.

Definition setLoading (v : bool) (s : state) : state :=
  {| comparison := comparison s; loading := v |}.

Definition finally : task state := SetState (setLoading false) Return.

Definition afterCompare (response : reply) : task state :=
  match response with
  | Rejected e => ConsoleError "Comparison error:" e finally
  | Fulfilled response =>
      match json response with
      | inl e => ConsoleError "Comparison error:" e finally
      | inr data => SetState (setComparison data) finally
      end
  end.

Definition compareDocuments (documentId1 documentId2 : js_string) : task state :=
  SetState (setLoading true)
    (Fetch (PostCompare documentId1 documentId2) afterCompare).

Inductive ui : Type :=
| Mounted (documentId1 documentId2 : js_string).

Definition handler (u : ui) (closure : state) : task state :=
  match u with
  | Mounted documentId1 documentId2 =>
      if JsString.truthy documentId1 && JsString.truthy documentId2
      then compareDocuments documentId1 documentId2
      else Return
  end.

End Comparison.

(* ================================================================== *)
(** * The specification's wording of the score bands *)


(** The bands as the specification words them: fixed thresholds tried
    from the highest down, each inclusive at its lower bound. *)
Definition spec_interpret (score : Q) : string :=
  if Qle_bool (90 # 100) score then "Nearly identical documents"
  else if Qle_bool (75 # 100) score then "Very similar structure and content"
  else if Qle_bool (60 # 100) score then "Moderately similar, same type"
  else if Qle_bool (40 # 100) score then "Somewhat similar clauses"
  else "Different documents".

(** "The bands never diverge between features": over the scores in [0,1]
    the comparison view and the search view put two scores in one band
    in exactly the same cases. *)
Definition bands_never_diverge : Prop :=
  forall x y : Q,
    (0 <= x)%Q /\ (x <= 1)%Q -> (0 <= y)%Q /\ (y <= 1)%Q ->
    (DocumentComparison.getColorForScore (Number.Fin x) =
       DocumentComparison.getColorForScore (Number.Fin y)
     <-> SemanticClauseSearch.getSimilarityColor (Number.Fin x) =
           SemanticClauseSearch.getSimilarityColor (Number.Fin y)).

(** ** Classification payloads *)

(** JSON numbers are finite: the scores of a payload as they reach the
    view after [JSON.parse]. *)
Definition parsedScores (scores : list (js_string * Q)) : list (js_string * number) :=
  map (fun e => (fst e, Number.Fin (snd e))) scores.

(** A response body of the classify endpoint carrying [scores], in the
    server's order, beside any other properties. *)
Definition classificationPayload (scores : list (js_string * Q))
    (others : list (js_string * value)) : value :=
  Obj ((lit "classification",
        Obj (map (fun e => (fst e, Num (Number.Fin (snd e)))) scores)) :: others).

(** Higher score first. *)
Definition descending (x y : js_string * number) : Prop :=
  Number.ge (snd x) (snd y) = true.

(* ================================================================== *)
(** * The specification's wording of the workflows *)

(** ** Analysis workflow *)

(** The document id of a successful upload: a 2xx response whose JSON
    body can be read for [document_id]. *)
Definition uploadedDocument (uploadRes : reply) : option value :=
  match uploadRes with
  | Rejected _ => None
  | Fulfilled r =>
      if ok r then
        match json r with
        | inr uploadData =>
            match Js.get uploadData (lit "document_id") with
            | inr document_id => Some document_id
            | inl _ => None
            end
        | inl _ => None
        end
      else None
  end.

(** Every analyze request on the wire comes right after the response of
    an upload that succeeded, and is keyed by the id that response
    carried. *)
Definition analyze_follows_upload (w : list wire_event) : Prop :=
  forall before document_id after,
    w = before ++ Sent (PostAnalyze document_id) :: after ->
    exists earlier f uploadRes,
      before = earlier ++ [Got (PostUpload f) uploadRes]
      /\ In (Sent (PostUpload f)) earlier
      /\ uploadedDocument uploadRes = Some document_id.

(** ** Semantic search *)

(** Query A is submitted, query B is submitted before A is answered, B's
    response arrives, and A's response arrives last. *)
Definition staleResponseTrace (qA qB : js_string) (respA respB : response)
  : list (N * event SemanticClauseSearch.ui) :=
  [ (1%N, User (SemanticClauseSearch.TypeQuery qA));
    (2%N, User SemanticClauseSearch.Submit);
    (3%N, User (SemanticClauseSearch.TypeQuery qB));
    (4%N, User SemanticClauseSearch.Submit);
    (5%N, Network 1 (Fulfilled respB));
    (6%N, Network 0 (Fulfilled respA)) ].

Definition staleResponseRace (documentId qA qB : js_string) (respA respB : response)
  : browser SemanticClauseSearch.state :=
  exec (SemanticClauseSearch.handler documentId)
    (staleResponseTrace qA qB respA respB)
    (mount SemanticClauseSearch.initial).

(** The same run stopped before A's response arrives. *)
Definition beforeStaleResponse (documentId qA qB : js_string) (respA respB : response)
  : browser SemanticClauseSearch.state :=
  exec (SemanticClauseSearch.handler documentId)
    (firstn 5 (staleResponseTrace qA qB respA respB))
    (mount SemanticClauseSearch.initial).

(** "The new request's result must win": after the race the panel shows
    B's result. *)
Definition last_submitted_query_wins : Prop :=
  forall documentId qA qB respA respB dataA dataB,
    JsString.trim qA <> [] -> JsString.trim qB <> [] ->
    json respA = inr dataA -> json respB = inr dataB ->
    Js.truthy dataB = true ->
    SemanticClauseSearch.displayed
      (view (staleResponseRace documentId qA qB respA respB)) = Some dataB.

(** ** Errors *)

(** A handler call that fails leaves a trace of the failure: in what the
    component shows or in what it logs. *)
Definition reports_failure {S : Type} (before after : browser S) : Prop :=
  view after <> view before \/ console after <> console before.

(** "Search fails with ValidationError on an empty or whitespace-only
    query." *)
Definition blank_search_fails : Prop :=
  forall documentId now (b : browser SemanticClauseSearch.state),
    JsString.trim (SemanticClauseSearch.searchQuery (view b)) = [] ->
    reports_failure b
      (step (SemanticClauseSearch.handler documentId) now
         (User SemanticClauseSearch.Submit) b).

(** "Ask fails with ValidationError if the question is empty after
    trimming." *)
Definition blank_ask_fails : Prop :=
  forall c p now (b : browser Chatbot.state),
    JsString.trim (Chatbot.input (view b)) = [] ->
    reports_failure b
      (step (Chatbot.handler c p) now (User Chatbot.Send) b).

(** "A non-2xx response is treated as a failure regardless of its body",
    endpoint by endpoint: such a response never becomes the search
    result, the classification or the comparison, it is answered in the
    chat by the apology of a failed request, and the text it carries
    shows up in the error the page reports. *)
Definition search_rejects_non_2xx : Prop :=
  forall now (b : browser SemanticClauseSearch.state) resp,
    ok resp = false ->
    SemanticClauseSearch.results
      (view (run now (SemanticClauseSearch.afterSearch (Fulfilled resp)) b))
    = SemanticClauseSearch.results (view b).

Definition classify_rejects_non_2xx : Prop :=
  forall now (b : browser DocumentClassification.state) resp,
    ok resp = false ->
    DocumentClassification.classification
      (view (run now (DocumentClassification.afterClassify (Fulfilled resp)) b))
    = DocumentClassification.classification (view b).

Definition compare_rejects_non_2xx : Prop :=
  forall now (b : browser Comparison.state) resp,
    ok resp = false ->
    Comparison.comparison
      (view (run now (Comparison.afterCompare (Fulfilled resp)) b))
    = Comparison.comparison (view b).

Definition chat_rejects_non_2xx : Prop :=
  forall c now (b : browser Chatbot.state) resp,
    ok resp = false ->
    exists apology,
      (apology = Chatbot.errorText c \/ apology = Chatbot.noAnswerText)
      /\ Chatbot.messages (view (run now (Chatbot.afterAsk c (Fulfilled resp)) b))
         = Chatbot.messages (view b)
           ++ [ {| Chatbot.msg_role := Chatbot.assistant;
                   Chatbot.content := Str apology;
                   Chatbot.timestamp := now |} ].

Definition upload_surfaces_body : Prop :=
  forall now (b : browser AnalyzePage.state) resp,
    ok resp = false ->
    exists before after,
      AnalyzePage.error
        (view (run now (AnalyzePage.afterUpload (Fulfilled resp)) b))
      = before ++ text resp ++ after.

(** ** Conversation *)

(** The answer a reply carries: the [answer] property of its JSON body,
    when there is one and it is not empty. *)
Definition returnedAnswer (response : reply) : option value :=
  match response with
  | Rejected _ => None
  | Fulfilled r =>
      match json r with
      | inr data =>
          match Js.get data (lit "answer") with
          | inr answer => if Js.truthy answer then Some answer else None
          | inl _ => None
          end
      | inl _ => None
      end
  end.

(* ================================================================== *)
(** * Sample data *)

Definition sampleFile : File :=
  {| file_name := lit "contract.pdf"; file_bytes := [37; 80; 68; 70]%N |}.

Definition sampleProps : Chatbot.props :=
  {| Chatbot.documentId := lit "doc-001";
     Chatbot.documentText := lit "This Agreement is made between the parties.";
     Chatbot.analysis := Obj [] |}.

Definition jsonResponse (status : N) (body : js_string) (data : value) : response :=
  {| status := status; text := body; json := inr data |}.

Definition quoted (s : string) : js_string := [34%N] ++ lit s ++ [34%N].

(** A search result for [query] with no matches, and the response that
    carries it. *)
Definition emptyResult (query : string) : value :=
  Obj [ (lit "query", Str (lit query));
        (lit "total_clauses", Num (Number.Fin 10));
        (lit "matches", Arr []) ].

Definition foundNothing (query : string) : response :=
  jsonResponse 200
    (lit "{" ++ quoted "query" ++ lit ":" ++ quoted query ++ lit ","
     ++ quoted "total_clauses" ++ lit ":10," ++ quoted "matches" ++ lit ":[]}")
    (emptyResult query).

(** An error response as the server's framework words it. *)
Definition serverError : response :=
  jsonResponse 500
    (lit "{" ++ quoted "detail" ++ lit ":" ++ quoted "Internal Server Error" ++ lit "}")
    (Obj [ (lit "detail", Str (lit "Internal Server Error")) ]).

(** The reply to a question. *)
Definition sampleAnswer : response :=
  jsonResponse 200
    (lit "{" ++ quoted "answer" ++ lit ":" ++ quoted "Either party, on 30 days notice." ++ lit "}")
    (Obj [ (lit "answer", Str (lit "Either party, on 30 days notice.")) ]).

(** A non-2xx response that happens to carry an [answer]. *)
Definition refusal : response :=
  jsonResponse 503
    (lit "{" ++ quoted "answer" ++ lit ":" ++ quoted "Service unavailable" ++ lit "}")
    (Obj [ (lit "answer", Str (lit "Service unavailable")) ]).

(** A non-2xx response with a plain-text body. *)
Definition tooLarge : response :=
  {| status := 413; text := lit "File too large";
     json := inl (Error (lit "Unexpected token 'F'")) |}.

(** The two responses of a workflow that goes through. *)
Definition uploaded : response :=
  jsonResponse 200
    (lit "{" ++ quoted "document_id" ++ lit ":" ++ quoted "doc-001" ++ lit ","
     ++ quoted "filename" ++ lit ":" ++ quoted "contract.pdf" ++ lit "}")
    (Obj [ (lit "document_id", Str (lit "doc-001"));
           (lit "filename", Str (lit "contract.pdf")) ]).

Definition analyzed : response :=
  jsonResponse 200
    (lit "{" ++ quoted "document_id" ++ lit ":" ++ quoted "doc-001" ++ lit ","
     ++ quoted "analysis" ++ lit ":{}}")
    (Obj [ (lit "document_id", Str (lit "doc-001")); (lit "analysis", Obj []) ]).

(* ================================================================== *)
(** * Invariants of the runs *)

(** What every suspended handler of the page is: an upload waiting for
    [afterUpload] or an analysis waiting for [afterAnalyze], whose request
    is on the wire. *)
Definition suspended_ok (w : list wire_event)
    (e : request * (reply -> task AnalyzePage.state)) : Prop :=
  In (Sent (fst e)) w
  /\ ((exists f, e = (PostUpload f, AnalyzePage.afterUpload))
      \/ (exists document_id, e = (PostAnalyze document_id, AnalyzePage.afterAnalyze))).

Definition page_ok (b : browser AnalyzePage.state) : Prop :=
  analyze_follows_upload (wire b) /\ Forall (suspended_ok (wire b)) (inflight b).

(** Every suspended handler of the search box waits in [afterSearch]. *)
Definition all_searches (b : browser SemanticClauseSearch.state) : Prop :=
  Forall (fun e => snd e = SemanticClauseSearch.afterSearch) (inflight b).

(** Either no search is under way, or the loading flag is up and exactly
    one request is outstanding. *)
Definition one_search_at_most (b : browser SemanticClauseSearch.state) : Prop :=
  (SemanticClauseSearch.loading (view b) = false /\ inflight b = [])
  \/ (SemanticClauseSearch.loading (view b) = true
      /\ exists r, inflight b = [(r, SemanticClauseSearch.afterSearch)]).

(** In a run of a chat component either nothing is pending, or the
    pending flag is up and exactly one ask is suspended. *)
Definition chat_ok (c : Chatbot.component) (b : browser Chatbot.state) : Prop :=
  (Chatbot.loading (view b) = false /\ inflight b = [])
  \/ (Chatbot.loading (view b) = true
      /\ exists r, inflight b = [(r, Chatbot.afterAsk c)]).

(** A stretch of a run in which only the user acts. *)
Definition userEvents {U : Type} (l : list (N * U)) : list (N * event U) :=
  map (fun e => (fst e, User (snd e))) l.

Definition finite_row (e : js_string * number) : Prop :=
  Number.isFinite (snd e) = true.

From Stdlib Require Import Qfield.

(* ================================================================== *)
(** * The rest of the views *)

(** ** Reading a property of an object literal

    [table[key]] on a literal finds the literal's own properties and,
    failing that, the members every object inherits from
    [Object.prototype]; those are functions or objects, always truthy. *)

Module Literal.

Inductive member (A : Type) : Type :=
| Own (a : A)
| Inherited
| Absent.

Arguments Inherited {A}.
Arguments Absent {A}.

Definition objectPrototype : list string :=
  [ "constructor"; "__proto__"; "hasOwnProperty"; "isPrototypeOf";
    "propertyIsEnumerable"; "toLocaleString"; "toString"; "valueOf";
    "__defineGetter__"; "__defineSetter__"; "__lookupGetter__";
    "__lookupSetter__" ]%string.

Fixpoint own {A : Type} (fields : list (string * A)) (key : js_string) : option A :=
  match fields with
  | [] => None
  | (name, a) :: rest => if JsString.eqb key (lit name) then Some a else own rest key
  end.

Definition inherited (key : js_string) : bool :=
  existsb (fun name => JsString.eqb key (lit name)) objectPrototype.

Definition get {A : Type} (fields : list (string * A)) (key : js_string) : member A :=
  match own fields key with
  | Some a => Own a
  | None => if inherited key then Inherited else Absent
  end.

End Literal.

(** ** Text helpers of the engine *)

Module JsText.






End JsText.

(** ** DocumentComparison: the icon of the score *)

Module ComparisonIcon.

#[local] Open Scope string_scope.

Definition getIconForScore (score : number) : string :=
  if Number.ge score (Number.dec 9 10) then "🎯"
  else if Number.ge score (Number.dec 75 100) then "✅"
  else if Number.ge score (Number.dec 6 10) then "⚠️"
  else "❌".

End ComparisonIcon.

(** ** DocumentClassification: labels and confidence *)

Module ClassificationLabels.

Definition labels : list (string * string) :=
  [ ("service_agreement", "Service Agreement");
    ("employment_contract", "Employment Contract");
    ("license_agreement", "License Agreement");
    ("nda", "Non-Disclosure Agreement");
    ("lease_agreement", "Lease Agreement");
    ("purchase_order", "Purchase Order");
    ("general_contract", "General Contract") ]%string.

(** [labels[type] || type]; [None] stands for an inherited member of the
    literal, which is not text. *)
Definition getTypeLabel (type : js_string) : option js_string :=
  match Literal.get labels type with
  | Literal.Own label => Some (lit label)
  | Literal.Absent => Some type
  | Literal.Inherited => None
  end.

Definition getConfidenceColor (confidence : number) : string :=
  if Number.ge confidence (Number.dec 8 10)
  then "text-green-600 bg-green-50 border-green-200"
  else if Number.ge confidence (Number.dec 6 10)
  then "text-yellow-600 bg-yellow-50 border-yellow-200"
  else "text-orange-600 bg-orange-50 border-orange-200".

End ClassificationLabels.

(** ** RiskFactorList *)

Module RiskFactorList.

Definition getSeverityColor (severity : js_string) : string :=
  if JsString.eqb severity (lit "Critical")
  then "bg-red-100 text-red-800 border-red-300"
  else if JsString.eqb severity (lit "High")
  then "bg-orange-100 text-orange-800 border-orange-300"
  else if JsString.eqb severity (lit "Medium")
  then "bg-yellow-100 text-yellow-800 border-yellow-300"
  else "bg-blue-100 text-blue-800 border-blue-300".

End RiskFactorList.

(** ** RiskBadge *)

Module RiskBadge.

#[local] Open Scope string_scope.

Record config : Type := {
  bg : string;
  text : string;
  border : string;
  emoji : string
}.

Definition configs : list (string * config) :=
  [ ("Critical", {| bg := "bg-red-100"; text := "text-red-800";
                    border := "border-red-300"; emoji := "⛔" |});
    ("High", {| bg := "bg-orange-100"; text := "text-orange-800";
                border := "border-orange-300"; emoji := "⚠️" |});
    ("Medium", {| bg := "bg-yellow-100"; text := "text-yellow-800";
                  border := "border-yellow-300"; emoji := "⚡" |});
    ("Low", {| bg := "bg-green-100"; text := "text-green-800";
               border := "border-green-300"; emoji := "✅" |}) ].

Inductive size : Type :=
| sm
| md
| lg.

Definition sizes (s : size) : string :=
  match s with
  | sm => "px-2 py-1 text-xs"
  | md => "px-3 py-1.5 text-sm"
  | lg => "px-4 py-2 text-base"
  end.

(** The class of the badge, or the TypeError of [config.icon] when
    [configs[level]] is undefined.  An inherited member has none of the
    three properties, and the template prints each as "undefined". *)
Definition className (level : js_string) (size_prop : option size) : js_error + string :=
  let size := match size_prop with Some s => s | None => md end in
  match Literal.get configs level with
  | Literal.Own config =>
      inr ("inline-flex items-center space-x-1.5 " ++ bg config ++ " "
           ++ text config ++ " " ++ border config ++ " border rounded-lg "
           ++ sizes size ++ " font-semibold")
  | Literal.Inherited =>
      inr ("inline-flex items-center space-x-1.5 undefined undefined undefined"
           ++ " border rounded-lg " ++ sizes size ++ " font-semibold")
  | Literal.Absent => inl (Js.cannot_read "undefined" (lit "icon"))
  end.

End RiskBadge.

(** ** RiskHeatmap: score, gauge and bars *)

Module RiskGauge.

#[local] Open Scope string_scope.

Record data : Type := {
  overall_score : option number;
  overall_risk_score : option number;
  risk_level : js_string;
  risk_matrix : option RiskHeatmap.risk_matrix
}.

(** [data.overall_risk_score ?? data.overall_score ?? 0] *)
Definition riskScore (d : data) : number :=
  match overall_risk_score d with
  | Some n => n
  | None => match overall_score d with Some n => n | None => Number.zero end
  end.

(** An absent property compares as NaN. *)
Definition toNumber (n : option number) : number :=
  match n with Some x => x | None => Number.NaN end.

(** The gradient of the gauge. *)
Definition gaugeColor (d : data) : string :=
  let score := toNumber (overall_score d) in
  if Number.ge score (Number.Fin 70) then "bg-gradient-to-r from-red-500 to-red-600"
  else if Number.ge score (Number.Fin 50) then "bg-gradient-to-r from-orange-500 to-orange-600"
  else if Number.ge score (Number.Fin 30) then "bg-gradient-to-r from-yellow-500 to-yellow-600"
  else "bg-gradient-to-r from-green-500 to-green-600".

(** The bar of a bucket, rendered when its count is positive: its width. *)
Definition bar (m : RiskHeatmap.risk_matrix) (count : number) : option number :=
  if Number.gt count Number.zero
  then Some (RiskHeatmap.barWidth (RiskHeatmap.getPercentage m count))
  else None.

(** The badge at the top of the card. *)
Definition badge (d : data) : js_error + string :=
  RiskBadge.className (risk_level d) (Some RiskBadge.lg).

End RiskGauge.

(** ** AnalyzePage: what the page derives from the result *)

Module AnalyzeView.

#[local] Open Scope string_scope.

Definition colors : list (string * string) :=
  [ ("Critical", "from-red-500 to-red-600");
    ("High", "from-orange-500 to-orange-600");
    ("Medium", "from-yellow-500 to-yellow-600");
    ("Low", "from-green-500 to-green-600") ].

(** [colors[level] || 'from-gray-500 to-gray-600']; [None] stands for an
    inherited member of the literal, which is not a class name. *)
Definition getRiskColor (level : js_string) : option string :=
  match Literal.get colors level with
  | Literal.Own color => Some color
  | Literal.Absent => Some "from-gray-500 to-gray-600"
  | Literal.Inherited => None
  end.

Definition riskAnalysis (result : value) : value :=
  Js.get_opt (Js.get_opt result (lit "analysis")) (lit "risk_analysis").

Definition indianContext (result : value) : value :=
  Js.get_opt (Js.get_opt result (lit "analysis")) (lit "indian_context").

Definition documentIntelligence (result : value) : value :=
  Js.get_opt (Js.get_opt result (lit "analysis")) (lit "document_intelligence").

Definition documentId (result : value) : value :=
  Js.get_opt result (lit "document_id").

Inductive feature : Type :=
| Classification
| ClauseGroups
| ClauseSearch.

(** The "Advanced AI Features" of the upload section, top to bottom. *)
Definition uploadSectionFeatures (result : value) : list feature :=
  (if Js.truthy (documentId result) then [Classification] else [])
  ++ (if Js.truthy (Js.get_opt (documentIntelligence result)
                      (lit "similar_clause_groups"))
      then [ClauseGroups] else [])
  ++ (if Js.truthy (documentId result) then [ClauseSearch] else []).

(** The same block of the results section; the clause groups are always
    there, over [similar_clause_groups || []]. *)
Definition resultsSectionFeatures (result : value) : list feature :=
  (if Js.truthy (documentId result) then [Classification] else [])
  ++ [ClauseGroups]
  ++ (if Js.truthy (documentId result) then [ClauseSearch] else []).

(** The page renders the upload section when [!result]. *)
Definition features (result : value) : list feature :=
  if negb (Js.truthy result) then uploadSectionFeatures result
  else resultsSectionFeatures result.








End AnalyzeView.

(** ** SemanticClauseSearch: the heading of a card *)

Module SearchCard.


End SearchCard.

(* ================================================================== *)
(** * Measures and shapes of the runs *)

(** The rank of a class in a cascade's list of outcomes, best first. *)
Fixpoint rankIn (outcomes : list string) (c : string) : nat :=
  match outcomes with
  | [] => 0
  | o :: rest => if String.eqb c o then 0 else S (rankIn rest c)
  end.

Definition isSent (e : wire_event) : bool :=
  match e with Sent _ => true | Got _ _ => false end.

Definition isGot (e : wire_event) : bool :=
  match e with Sent _ => false | Got _ _ => true end.

Definition countSent (w : list wire_event) : nat := List.length (filter isSent w).
Definition countGot (w : list wire_event) : nat := List.length (filter isGot w).

Definition other (r : Chatbot.role) : Chatbot.role :=
  match r with Chatbot.user => Chatbot.assistant | Chatbot.assistant => Chatbot.user end.

Definition sameRole (a b : Chatbot.role) : bool :=
  match a, b with
  | Chatbot.user, Chatbot.user | Chatbot.assistant, Chatbot.assistant => true
  | _, _ => false
  end.

(** The speakers of a history take turns, [first] speaking first. *)
Fixpoint takesTurns (first : Chatbot.role) (history : list Chatbot.Message) : bool :=
  match history with
  | [] => true
  | m :: rest =>
      sameRole (Chatbot.msg_role m) first && takesTurns (other first) rest
  end.

(** The shape every run of a chat component keeps. *)
Definition chat_shape (c : Chatbot.component) (b : browser Chatbot.state) : Prop :=
  chat_ok c b
  /\ takesTurns Chatbot.assistant (Chatbot.messages (view b)) = true
  /\ Nat.odd (List.length (Chatbot.messages (view b)))
     = negb (Chatbot.loading (view b))
  /\ List.length (Chatbot.messages (view b))
     = (1 + countSent (wire b) + countGot (wire b))%nat
  /\ countSent (wire b) = (countGot (wire b) + List.length (inflight b))%nat.

(** The error a reply fails with, if it fails: the rejection of [fetch]
    or the SyntaxError of [json()]. *)
Definition failure (answer : reply) : option js_error :=
  match answer with
  | Rejected e => Some e
  | Fulfilled r => match json r with inl e => Some e | inr _ => None end
  end.

(** The phases of the analysis page: at rest, awaiting the upload, or
    awaiting the analysis. *)
Definition page_phase (b : browser AnalyzePage.state) : Prop :=
  (AnalyzePage.uploading (view b) = false
   /\ AnalyzePage.analyzing (view b) = false
   /\ inflight b = [])
  \/ (AnalyzePage.uploading (view b) = true
      /\ AnalyzePage.analyzing (view b) = true
      /\ exists f, inflight b = [(PostUpload f, AnalyzePage.afterUpload)])
  \/ (AnalyzePage.uploading (view b) = false
      /\ AnalyzePage.analyzing (view b) = true
      /\ exists document_id,
           inflight b = [(PostAnalyze document_id, AnalyzePage.afterAnalyze)]).

(** The result on display, if any, is the body of an analyze response
    that was 2xx and parsed. *)
Definition result_from_analysis (b : browser AnalyzePage.state) : Prop :=
  AnalyzePage.result (view b) = Null
  \/ exists document_id resp,
       In (Got (PostAnalyze document_id) (Fulfilled resp)) (wire b)
       /\ ok resp = true
       /\ json resp = inr (AnalyzePage.result (view b)).

(* ================================================================== *)
(** * Properties *)

(** ** Strings and numbers *)

Module JsStringFacts.
Import JsString.

Lemma eqb_eq (a b : t) : eqb a b = true <-> a = b.
Proof.
  revert b; induction a as [|x a IH]; intros [|y b]; simpl;
    try (split; [discriminate | congruence]); [tauto|].
  rewrite andb_true_iff, N.eqb_eq, IH.
  split; [intros [-> ->]; reflexivity | intros [= -> ->]; auto].
Qed.

Lemma eqb_refl (a : t) : eqb a a = true.
Proof. apply eqb_eq; reflexivity. Qed.

Lemma trimStart_nil_iff (s : t) : trimStart s = [] <-> forallb is_white s = true.
Proof.
  induction s as [|u s IH]; simpl; [tauto|].
  destruct (is_white u); simpl; [exact IH|].
  split; discriminate.
Qed.

Lemma trimStart_head (s : t) u r : trimStart s = u :: r -> is_white u = false.
Proof.
  induction s as [|v s IH]; simpl; [discriminate|].
  destruct (is_white v) eqn:Ev; [exact IH|].
  intros [= <- _]. exact Ev.
Qed.

Lemma trim_nil_iff (s : t) : trim s = [] <-> forallb is_white s = true.
Proof.
  unfold trim, trimEnd. split.
  - intros H. apply trimStart_nil_iff.
    destruct (trimStart s) as [|u r] eqn:E; [reflexivity|].
    exfalso.
    assert (Hr : trimStart (rev (u :: r)) = []).
    { destruct (trimStart (rev (u :: r))) as [|a l]; [reflexivity|].
      simpl in H. destruct (rev l); discriminate. }
    apply trimStart_nil_iff in Hr.
    rewrite forallb_forall in Hr.
    assert (Hu : is_white u = true)
      by (apply Hr, (proj1 (in_rev _ _)); left; reflexivity).
    apply trimStart_head in E. congruence.
  - intros H. apply trimStart_nil_iff in H. rewrite H. reflexivity.
Qed.

Lemma substring_prefix (s : t) (n : nat) :
  substring s 0 (Z.of_nat n) = firstn n s.
Proof.
  unfold substring, clamp. simpl.
  destruct (Z.of_nat n <? 0)%Z eqn:E; [apply Z.ltb_lt in E; lia|].
  rewrite Nat2Z.id, Nat.sub_0_r. simpl.
  destruct (Nat.le_ge_cases n (List.length s)) as [L|L].
  - rewrite (Nat.min_l _ _ L). reflexivity.
  - rewrite (Nat.min_r _ _ L). rewrite firstn_all. symmetry. apply firstn_all2. exact L.
Qed.



End JsStringFacts.

Module NumberFacts.
Import Number.

Lemma ge_refl_fin (q : Q) : ge (Fin q) (Fin q) = true.
Proof. simpl. apply Qle_bool_iff. apply Qle_refl. Qed.

Lemma ge_fin (x y : Q) : ge (Fin x) (Fin y) = true <-> (y <= x)%Q.
Proof. simpl. apply Qle_bool_iff. Qed.

Lemma gt_fin (x y : Q) : gt (Fin x) (Fin y) = true <-> (y < x)%Q.
Proof.
  simpl. rewrite negb_true_iff. split.
  - intros H. apply Qnot_le_lt. intros L. apply Qle_bool_iff in L. congruence.
  - intros H. destruct (Qle_bool x y) eqn:E; [|reflexivity].
    apply Qle_bool_iff in E. exfalso. exact (Qlt_not_le _ _ H E).
Qed.

Lemma sign_eq (x : Q) : sign x = Eq <-> (x == 0)%Q.
Proof. unfold sign. symmetry. apply Qeq_alt. Qed.

Lemma strict_eq_zero_sign (x : Q) :
  strict_eq (Fin x) zero = true <-> sign x = Eq.
Proof. simpl. rewrite Qeq_bool_iff, sign_eq. tauto. Qed.



End NumberFacts.

(** ** Score bands *)

Module BandFacts.
Import Number.

Lemma ge_dec_true (q : Q) (n : Z) (d : positive) :
  (n # d <= q)%Q -> ge (Fin q) (dec n d) = true.
Proof. intros H. apply NumberFacts.ge_fin. exact H. Qed.

Lemma ge_dec_false (q : Q) (n : Z) (d : positive) :
  (q < n # d)%Q -> ge (Fin q) (dec n d) = false.
Proof.
  intros H. destruct (ge (Fin q) (dec n d)) eqn:E; [|reflexivity].
  apply NumberFacts.ge_fin in E. exfalso. exact (Qlt_not_le _ _ H E).
Qed.

Lemma ge_dec_cases (x : number) (n : Z) (d : positive) :
  {ge x (dec n d) = true} + {ge x (dec n d) = false}.
Proof. destruct (ge x (dec n d)); [left | right]; reflexivity. Qed.

(** A score that reaches a threshold reaches every lower one. *)
Lemma ge_dec_mono (x : number) (n m : Z) (d e : positive) :
  (m # e <= n # d)%Q -> ge x (dec n d) = true -> ge x (dec m e) = true.
Proof.
  intros L. destruct x as [q| | |]; simpl; try discriminate; try reflexivity.
  rewrite !Qle_bool_iff. intros H. exact (Qle_trans _ _ _ L H).
Qed.

End BandFacts.

Lemma Qle_bool_compat_l (a b q : Q) : (a == b)%Q -> Qle_bool a q = Qle_bool b q.
Proof.
  intros E. apply eq_true_iff_eq. rewrite !Qle_bool_iff.
  split; intros H; [rewrite <- E | rewrite E]; exact H.
Qed.

Lemma interpret_refines_spec (q : Q) :
  DocumentComparison.interpret (Number.Fin q) = Some (spec_interpret q).
Proof.
  unfold DocumentComparison.interpret, DocumentComparison.getColorForScore,
    spec_interpret, Number.dec, Number.ge.
  rewrite (Qle_bool_compat_l (a := 90 # 100) (b := 9 # 10) q) by reflexivity.
  rewrite (Qle_bool_compat_l (a := 60 # 100) (b := 6 # 10) q) by reflexivity.
  rewrite (Qle_bool_compat_l (a := 40 # 100) (b := 4 # 10) q) by reflexivity.
  destruct (Qle_bool (9 # 10) q); [reflexivity|].
  destruct (Qle_bool (75 # 100) q); [reflexivity|].
  destruct (Qle_bool (6 # 10) q); [reflexivity|].
  destruct (Qle_bool (4 # 10) q); reflexivity.
Qed.


(** At every score the band claims name, the exact model and binary64
    pick the same band in both views. *)
Example bands_agree_with_binary64 :
  forallb
    (fun s =>
       String.eqb (DocumentComparison.getColorForScore (fst s))
                  (Binary64.getColorForScore (snd s))
       && String.eqb (SemanticClauseSearch.getSimilarityColor (fst s))
                     (Binary64.getSimilarityColor (snd s)))
    Binary64.boundaryScores = true.
Proof. vm_compute. reflexivity. Qed.

(** C5.  Band classification is tried from the highest threshold down and
    every threshold is inclusive at its lower bound: a score of exactly
    0.90, 0.75, 0.60 or 0.40 falls in the higher band; in particular 0.90
    is "Nearly identical documents", 0.8999 is "Very similar structure and
    content" and 0.0 is "Different documents". *)
Theorem C5_bands_inclusive_at_lower_bound :
  (forall q : Q,
     ((9 # 10 <= q)%Q ->
        DocumentComparison.getColorForScore (Number.Fin q) = "from-green-500 to-emerald-600"%string /\
        DocumentComparison.interpret (Number.Fin q) = Some "Nearly identical documents"%string) /\
     ((75 # 100 <= q)%Q -> (q < 9 # 10)%Q ->
        DocumentComparison.getColorForScore (Number.Fin q) = "from-blue-500 to-cyan-600"%string /\
        DocumentComparison.interpret (Number.Fin q) = Some "Very similar structure and content"%string) /\
     ((6 # 10 <= q)%Q -> (q < 75 # 100)%Q ->
        DocumentComparison.getColorForScore (Number.Fin q) = "from-yellow-500 to-orange-500"%string /\
        DocumentComparison.interpret (Number.Fin q) = Some "Moderately similar, same type"%string) /\
     ((4 # 10 <= q)%Q -> (q < 6 # 10)%Q ->
        DocumentComparison.getColorForScore (Number.Fin q) = "from-orange-500 to-red-500"%string /\
        DocumentComparison.interpret (Number.Fin q) = Some "Somewhat similar clauses"%string) /\
     ((q < 4 # 10)%Q ->
        DocumentComparison.getColorForScore (Number.Fin q) = "from-red-500 to-pink-600"%string /\
        DocumentComparison.interpret (Number.Fin q) = Some "Different documents"%string) /\
     DocumentComparison.interpret (Number.Fin q) = Some (spec_interpret q))
  /\ DocumentComparison.interpret (Number.dec 90 100) = Some "Nearly identical documents"%string
  /\ DocumentComparison.interpret (Number.dec 75 100) = Some "Very similar structure and content"%string
  /\ DocumentComparison.interpret (Number.dec 60 100) = Some "Moderately similar, same type"%string
  /\ DocumentComparison.interpret (Number.dec 40 100) = Some "Somewhat similar clauses"%string
  /\ DocumentComparison.interpret (Number.dec 8999 10000) = Some "Very similar structure and content"%string
  /\ DocumentComparison.interpret (Number.dec 0 10) = Some "Different documents"%string.
Proof.
  split; [|repeat split; reflexivity].
  intros q.
  assert (L1 : (75 # 100 < 9 # 10)%Q) by reflexivity.
  assert (L2 : (6 # 10 < 75 # 100)%Q) by reflexivity.
  assert (L3 : (4 # 10 < 6 # 10)%Q) by reflexivity.
  unfold DocumentComparison.interpret, DocumentComparison.getColorForScore.
  repeat split.
  - rewrite (BandFacts.ge_dec_true H). reflexivity.
  - rewrite (BandFacts.ge_dec_true H). reflexivity.
  - rewrite (BandFacts.ge_dec_false H0), (BandFacts.ge_dec_true H). reflexivity.
  - rewrite (BandFacts.ge_dec_false H0), (BandFacts.ge_dec_true H). reflexivity.
  - rewrite (BandFacts.ge_dec_false (Qlt_trans _ _ _ H0 L1)),
      (BandFacts.ge_dec_false H0), (BandFacts.ge_dec_true H). reflexivity.
  - rewrite (BandFacts.ge_dec_false (Qlt_trans _ _ _ H0 L1)),
      (BandFacts.ge_dec_false H0), (BandFacts.ge_dec_true H). reflexivity.
  - pose proof (Qlt_trans _ _ _ H0 L2) as H1.
    rewrite (BandFacts.ge_dec_false (Qlt_trans _ _ _ H1 L1)),
      (BandFacts.ge_dec_false H1), (BandFacts.ge_dec_false H0),
      (BandFacts.ge_dec_true H). reflexivity.
  - pose proof (Qlt_trans _ _ _ H0 L2) as H1.
    rewrite (BandFacts.ge_dec_false (Qlt_trans _ _ _ H1 L1)),
      (BandFacts.ge_dec_false H1), (BandFacts.ge_dec_false H0),
      (BandFacts.ge_dec_true H). reflexivity.
  - pose proof (Qlt_trans _ _ _ H L3) as H1.
    pose proof (Qlt_trans _ _ _ H1 L2) as H2.
    rewrite (BandFacts.ge_dec_false (Qlt_trans _ _ _ H2 L1)),
      (BandFacts.ge_dec_false H2), (BandFacts.ge_dec_false H1),
      (BandFacts.ge_dec_false H). reflexivity.
  - pose proof (Qlt_trans _ _ _ H L3) as H1.
    pose proof (Qlt_trans _ _ _ H1 L2) as H2.
    rewrite (BandFacts.ge_dec_false (Qlt_trans _ _ _ H2 L1)),
      (BandFacts.ge_dec_false H2), (BandFacts.ge_dec_false H1),
      (BandFacts.ge_dec_false H). reflexivity.
  - apply interpret_refines_spec.
Qed.

(** C6, as stated, fails: 0.5 and 0.3 share the lowest band of the search
    view and sit in two different bands of the comparison view. *)
Lemma C6_bands_diverge_below_060 : ~ bands_never_diverge.
Proof.
  intros H.
  assert (R : forall q : Q, Qle_bool 0 q = true -> Qle_bool q 1 = true ->
                (0 <= q)%Q /\ (q <= 1)%Q)
    by (intros q A B; split; apply Qle_bool_iff; assumption).
  specialize (H (5 # 10) (3 # 10) (R (5 # 10) eq_refl eq_refl) (R (3 # 10) eq_refl eq_refl)).
  destruct H as [_ H]. specialize (H eq_refl). discriminate H.
Qed.

Ltac split_on_thresholds x :=
  destruct (Number.ge x (Number.dec 9 10)) eqn:?;
  destruct (Number.ge x (Number.dec 75 100)) eqn:?;
  destruct (Number.ge x (Number.dec 6 10)) eqn:?;
  destruct (Number.ge x (Number.dec 4 10)) eqn:?.

(** C6, amended.  The two views share the thresholds 0.90, 0.75 and 0.60:
    two scores in one band of the comparison view are in one band of the
    search view, and for scores of at least 0.60 the converse holds too.
    Below 0.60 the search view has a single band, which the comparison
    view splits in two at 0.40. *)
Theorem C6_comparison_bands_refine_search_bands (x y : number) :
  (DocumentComparison.getColorForScore x = DocumentComparison.getColorForScore y ->
   SemanticClauseSearch.getSimilarityColor x = SemanticClauseSearch.getSimilarityColor y)
  /\ (Number.ge x (Number.dec 6 10) = true -> Number.ge y (Number.dec 6 10) = true ->
      SemanticClauseSearch.getSimilarityColor x = SemanticClauseSearch.getSimilarityColor y ->
      DocumentComparison.getColorForScore x = DocumentComparison.getColorForScore y)
  /\ (Number.ge x (Number.dec 6 10) = false ->
      SemanticClauseSearch.getSimilarityColor x = "bg-gray-100 border-gray-400 text-gray-800"%string
      /\ DocumentComparison.getColorForScore x =
           (if Number.ge x (Number.dec 4 10) then "from-orange-500 to-red-500"
            else "from-red-500 to-pink-600")%string).
Proof.
  unfold DocumentComparison.getColorForScore, SemanticClauseSearch.getSimilarityColor.
  split; [|split].
  - split_on_thresholds x; split_on_thresholds y;
      intros E; try reflexivity; discriminate E.
  - split_on_thresholds x; split_on_thresholds y;
      intros A B E; try reflexivity; try discriminate A; try discriminate B;
      discriminate E.
  - intros A.
    assert (B : Number.ge x (Number.dec 75 100) = false).
    { destruct (Number.ge x (Number.dec 75 100)) eqn:E; [|reflexivity].
      rewrite (BandFacts.ge_dec_mono x (n := 75) (d := 100) (m := 6) (e := 10)) in A;
        [discriminate A | discriminate | exact E]. }
    assert (C : Number.ge x (Number.dec 9 10) = false).
    { destruct (Number.ge x (Number.dec 9 10)) eqn:E; [|reflexivity].
      rewrite (BandFacts.ge_dec_mono x (n := 9) (d := 10) (m := 6) (e := 10)) in A;
        [discriminate A | discriminate | exact E]. }
    rewrite A, B, C. split; reflexivity.
Qed.

(** ** Percentages of the risk matrix *)

(** C9.  The percentage of a bucket is its count divided by the total of
    the four counts, times 100; when the total is zero it is 0, where the
    bare quotient would have been NaN.  (The bar drawn from it is never
    narrower than 15.) *)
Theorem C9_percentage_guarded (critical high medium low count : Q) :
  let m := {| RiskHeatmap.Critical := Number.Fin critical;
              RiskHeatmap.High := Number.Fin high;
              RiskHeatmap.Medium := Number.Fin medium;
              RiskHeatmap.Low := Number.Fin low |} in
  let total := (critical + high + medium + low)%Q in
  RiskHeatmap.total m = Number.Fin total
  /\ RiskHeatmap.getPercentage m (Number.Fin count) =
       (if Qeq_bool total 0 then Number.Fin 0
        else Number.Fin (count / total * 100))
  /\ Number.isNaN (RiskHeatmap.getPercentage m (Number.Fin count)) = false
  /\ Number.isFinite (RiskHeatmap.getPercentage m (Number.Fin count)) = true
  /\ Number.isNaN (Number.mul (Number.div (Number.Fin 0) (Number.Fin 0)) (Number.Fin 100)) = true
  /\ Number.ge (RiskHeatmap.barWidth (RiskHeatmap.getPercentage m (Number.Fin count)))
       (Number.Fin 15) = true.
Proof.
  intros m total.
  assert (T : RiskHeatmap.total m = Number.Fin total) by reflexivity.
  assert (P : RiskHeatmap.getPercentage m (Number.Fin count) =
                if Qeq_bool total 0 then Number.Fin 0
                else Number.Fin (count / total * 100)).
  { unfold RiskHeatmap.getPercentage. rewrite T.
    change (Number.strict_eq (Number.Fin total) Number.zero) with (Qeq_bool total 0).
    destruct (Qeq_bool total 0) eqn:E; [reflexivity|].
    unfold Number.div.
    destruct (Number.sign total) eqn:S; try reflexivity.
    apply NumberFacts.sign_eq in S. apply Qeq_bool_iff in S. congruence. }
  assert (B : forall q : Q,
             Number.ge (RiskHeatmap.barWidth (Number.Fin q)) (Number.Fin 15) = true).
  { intros q. unfold RiskHeatmap.barWidth. cbn [Number.isNaN].
    destruct (Number.ge (Number.Fin q) (Number.Fin 15)) eqn:E;
      [exact E | apply NumberFacts.ge_refl_fin]. }
  split; [exact T|]. split; [exact P|].
  rewrite P. destruct (Qeq_bool total 0); repeat split; try reflexivity; apply B.
Qed.

(** ** Sorting the classification rows *)

Module SortFacts.

Section Insert.

Variable A : Type.
Variable comparefn : A -> A -> number.

Lemma insert_perm (x : A) (l : list A) :
  Permutation (JsArray.insert comparefn x l) (x :: l).
Proof.
  induction l as [|y l IH]; simpl; [apply Permutation_refl|].
  destruct (Number.gt (comparefn x y) Number.zero).
  - apply perm_trans with (y :: x :: l); [apply perm_skip; exact IH | apply perm_swap].
  - apply Permutation_refl.
Qed.

Lemma sort_perm (l : list A) : Permutation (JsArray.sort comparefn l) l.
Proof.
  induction l as [|x l IH]; simpl; [apply perm_nil|].
  apply perm_trans with (x :: JsArray.sort comparefn l);
    [apply insert_perm | apply perm_skip; exact IH].
Qed.

Lemma insert_head (P : A -> Prop) (x : A) (l : list A) :
  P x -> HdRel (fun _ b => P b) x l ->
  forall y, HdRel (fun _ b => P b) y (JsArray.insert comparefn x l).
Proof.
  intros Px Hl y. destruct l as [|z l]; simpl; [constructor; exact Px|].
  destruct (Number.gt (comparefn x z) Number.zero); constructor; [|exact Px].
  inversion Hl; assumption.
Qed.

End Insert.

Lemma parsedScores_finite (scores : list (js_string * Q)) :
  Forall finite_row (parsedScores scores).
Proof.
  induction scores as [|e l IH]; simpl; constructor; [reflexivity | exact IH].
Qed.

(** On finite scores the comparator [b - a] is positive exactly when the
    second row has the strictly higher score. *)
Lemma comparator_positive (k k' : js_string) (a b : Q) :
  Number.gt (DocumentClassification.byScoreDescending (k, Number.Fin a) (k', Number.Fin b))
    Number.zero = true <-> (a < b)%Q.
Proof.
  unfold DocumentClassification.byScoreDescending, Number.sub. simpl fst; simpl snd.
  change (Number.add (Number.Fin b) (Number.neg (Number.Fin a)))
    with (Number.Fin (b + - a)).
  unfold Number.zero. rewrite NumberFacts.gt_fin.
  split; intros H.
  - apply Qplus_lt_l with (z := (- a)%Q). rewrite Qplus_opp_r. exact H.
  - apply Qplus_lt_l with (z := (- a)%Q) in H. rewrite Qplus_opp_r in H. exact H.
Qed.

Lemma insert_sorted (x : js_string * number) (l : list (js_string * number)) :
  finite_row x -> Forall finite_row l -> Sorted descending l ->
  Sorted descending (JsArray.insert DocumentClassification.byScoreDescending x l).
Proof.
  intros Fx Fl Sl. induction Sl as [|y l Sl IH Hd]; simpl.
  - repeat constructor.
  - inversion Fl as [|? ? Fy Fl']; subst.
    destruct x as [k [a| | |]]; try discriminate Fx.
    destruct y as [k' [b| | |]]; try discriminate Fy.
    match goal with |- context [if ?c then _ else _] => destruct c eqn:E end.
    + apply (comparator_positive k k' a b) in E.
      constructor; [apply IH; exact Fl'|].
      destruct l as [|z l']; simpl.
      * constructor. apply NumberFacts.ge_fin. apply Qlt_le_weak. exact E.
      * match goal with |- context [if ?c then _ else _] => destruct c end.
        -- constructor. inversion Hd; assumption.
        -- constructor. apply NumberFacts.ge_fin. apply Qlt_le_weak. exact E.
    + constructor; [constructor; assumption|].
      constructor. apply NumberFacts.ge_fin. apply Qnot_lt_le. intros L.
      apply (comparator_positive k k' a b) in L.
      change (Number.gt (DocumentClassification.byScoreDescending
                (k, Number.Fin a) (k', Number.Fin b)) Number.zero = false) in E.
      congruence.
Qed.

Lemma insert_finite (x : js_string * number) (l : list (js_string * number)) :
  finite_row x -> Forall finite_row l ->
  Forall finite_row (JsArray.insert DocumentClassification.byScoreDescending x l).
Proof.
  intros Fx Fl.
  apply (@Permutation_Forall _ finite_row (x :: l));
    [apply Permutation_sym, insert_perm | constructor; assumption].
Qed.

Lemma rows_sorted (l : list (js_string * number)) :
  Forall finite_row l ->
  Sorted descending (DocumentClassification.rows l)
  /\ Forall finite_row (DocumentClassification.rows l).
Proof.
  unfold DocumentClassification.rows.
  induction 1 as [|x l Fx Fl [IHs IHf]]; simpl.
  - split; constructor.
  - split; [apply insert_sorted | apply insert_finite]; assumption.
Qed.

Lemma numberEntries_payload (scores : list (js_string * Q)) :
  DocumentClassification.numberEntries
    (map (fun e => (fst e, Num (Number.Fin (snd e)))) scores)
  = Some (parsedScores scores).
Proof.
  induction scores as [|[k q] l IH]; simpl; [reflexivity|].
  rewrite IH. reflexivity.
Qed.

Lemma allClassifications_payload scores others :
  DocumentClassification.allClassifications (classificationPayload scores others)
  = Some (DocumentClassification.rows (parsedScores scores)).
Proof.
  unfold DocumentClassification.allClassifications, classificationPayload, Js.get.
  unfold Js.lookup. rewrite JsStringFacts.eqb_refl.
  unfold DocumentClassification.entries. rewrite numberEntries_payload. reflexivity.
Qed.

Lemma withKeys_values {A : Type} (l : list A) (idx : nat) :
  map snd (SemanticClauseSearch.withKeys idx l) = l.
Proof.
  revert idx; induction l as [|x l IH]; intros idx; simpl; [reflexivity|].
  rewrite IH. reflexivity.
Qed.

End SortFacts.

(** C10.  Whatever order the server listed the classification scores in,
    the rows of "All Classifications" are the same entries rearranged in
    descending order of score; the cards of the semantic search keep the
    order of the server's matches. *)
Theorem C10_classification_rows_sorted_descending
    (scores : list (js_string * Q)) (others : list (js_string * value)) :
  exists rendered,
    DocumentClassification.allClassifications (classificationPayload scores others)
      = Some rendered
    /\ Permutation rendered (parsedScores scores)
    /\ Sorted descending rendered
    /\ (forall reordered, Permutation scores reordered ->
          exists rendered',
            DocumentClassification.allClassifications
              (classificationPayload reordered others) = Some rendered'
            /\ Permutation rendered rendered'
            /\ Sorted descending rendered')
    /\ (forall results matches,
          Js.get_opt results (lit "matches") = Arr matches ->
          map snd (SemanticClauseSearch.matchCards results) = matches).
Proof.
  exists (DocumentClassification.rows (parsedScores scores)).
  split; [apply SortFacts.allClassifications_payload|].
  split; [apply SortFacts.sort_perm|].
  split; [apply SortFacts.rows_sorted, SortFacts.parsedScores_finite|].
  split.
  - intros reordered P.
    exists (DocumentClassification.rows (parsedScores reordered)).
    split; [apply SortFacts.allClassifications_payload|].
    split; [|apply SortFacts.rows_sorted, SortFacts.parsedScores_finite].
    apply perm_trans with (parsedScores scores); [apply SortFacts.sort_perm|].
    apply perm_trans with (parsedScores reordered);
      [apply Permutation_map; exact P | apply Permutation_sym, SortFacts.sort_perm].
  - intros results matches E. unfold SemanticClauseSearch.matchCards.
    rewrite E. apply SortFacts.withKeys_values.
Qed.

(** ** The analysis workflow *)

Module PageFacts.
Import AnalyzePage.

Lemma afterAnalyze_quiet now (analyzeRes : reply) (b : browser state) :
  inflight (run now (afterAnalyze analyzeRes) b) = inflight b
  /\ wire (run now (afterAnalyze analyzeRes) b) = wire b.
Proof.
  destruct analyzeRes as [e|r]; simpl; [split; reflexivity|].
  destruct (ok r); simpl; [|split; reflexivity].
  destruct (json r); simpl; split; reflexivity.
Qed.

Lemma afterUpload_success now (uploadRes : reply) (b : browser state) document_id :
  uploadedDocument uploadRes = Some document_id ->
  run now (afterUpload uploadRes) b =
    {| view := setUploading false (view b);
       inflight := inflight b ++ [(PostAnalyze document_id, afterAnalyze)];
       wire := wire b ++ [Sent (PostAnalyze document_id)];
       console := console b |}.
Proof.
  destruct uploadRes as [e|r]; simpl; [discriminate|].
  destruct (ok r); simpl; [|discriminate].
  destruct (json r) as [e|uploadData]; simpl; [discriminate|].
  destruct (Js.get uploadData (lit "document_id")) as [e|v]; [discriminate|].
  intros [= ->]. reflexivity.
Qed.

Lemma afterUpload_failure now (uploadRes : reply) (b : browser state) :
  uploadedDocument uploadRes = None ->
  inflight (run now (afterUpload uploadRes) b) = inflight b
  /\ wire (run now (afterUpload uploadRes) b) = wire b
  /\ uploading (view (run now (afterUpload uploadRes) b)) = false
  /\ analyzing (view (run now (afterUpload uploadRes) b)) = false
  /\ result (view (run now (afterUpload uploadRes) b)) = result (view b).
Proof.
  destruct uploadRes as [e|r]; simpl; [repeat split|].
  destruct (ok r); simpl; [|repeat split].
  destruct (json r) as [e|uploadData]; simpl; [repeat split|].
  destruct (Js.get uploadData (lit "document_id")) as [e|v]; [|discriminate].
  repeat split.
Qed.

Lemma follows_snoc (w : list wire_event) (e : wire_event) :
  analyze_follows_upload w ->
  (forall document_id, e = Sent (PostAnalyze document_id) ->
     exists earlier f uploadRes,
       w = earlier ++ [Got (PostUpload f) uploadRes]
       /\ In (Sent (PostUpload f)) earlier
       /\ uploadedDocument uploadRes = Some document_id) ->
  analyze_follows_upload (w ++ [e]).
Proof.
  intros H He before document_id after E.
  destruct after as [|a after'] using rev_ind.
  - apply app_inj_tail in E. destruct E as [-> ->].
    apply He. reflexivity.
  - clear IHafter'.
    change (w ++ [e] = before ++ (Sent (PostAnalyze document_id) :: after') ++ [a]) in E.
    rewrite app_assoc in E. apply app_inj_tail in E. destruct E as [E _].
    exact (H _ _ _ E).
Qed.

Lemma follows_snoc_other (w : list wire_event) (e : wire_event) :
  analyze_follows_upload w ->
  (forall document_id, e <> Sent (PostAnalyze document_id)) ->
  analyze_follows_upload (w ++ [e]).
Proof.
  intros H Ne. apply follows_snoc; [exact H|].
  intros document_id E. destruct (Ne _ E).
Qed.

Lemma suspended_ok_mono w w' e : suspended_ok w e -> suspended_ok (w ++ w') e.
Proof. intros [I K]. split; [apply in_or_app; left; exact I | exact K]. Qed.

Lemma Forall_suspended_mono w w' l :
  Forall (suspended_ok w) l -> Forall (suspended_ok (w ++ w')) l.
Proof. intros H. eapply Forall_impl; [|exact H]. intros e. apply suspended_ok_mono. Qed.

Lemma remove_nth_incl {A : Type} (i : nat) (l : list A) (x : A) :
  In x (remove_nth i l) -> In x l.
Proof.
  unfold remove_nth. revert l; induction i as [|i IH]; intros [|a l]; simpl; try tauto.
  intros [E|I]; [left; exact E | right; apply IH; exact I].
Qed.

Lemma Forall_remove_nth {A : Type} (P : A -> Prop) i (l : list A) :
  Forall P l -> Forall P (remove_nth i l).
Proof.
  rewrite !Forall_forall. intros H x I. apply H. exact (remove_nth_incl _ _ _ I).
Qed.

Lemma page_ok_mount : page_ok (mount initial).
Proof.
  split; [|constructor].
  intros before document_id after E. destruct before; discriminate E.
Qed.

Lemma page_ok_step now (e : event ui) (b : browser state) :
  page_ok b -> page_ok (step handler now e b).
Proof.
  intros [W F]. destruct e as [u|i answer]; simpl.
  - destruct u as [files| |]; simpl.
    + destruct files; simpl; split; assumption.
    + unfold handleUploadAndAnalyze.
      destruct (file (view b)) as [f|]; simpl; [|split; assumption].
      split.
      * apply follows_snoc_other; [exact W | discriminate].
      * apply Forall_app. split; [apply Forall_suspended_mono; exact F|].
        constructor; [|constructor]. split.
        -- apply in_or_app. right. left. reflexivity.
        -- left. exists f. reflexivity.
    + split; assumption.
  - destruct (nth_error (inflight b) i) as [[r k]|] eqn:N; [|split; assumption].
    pose proof (nth_error_In _ _ N) as I.
    rewrite Forall_forall in F. pose proof (F _ I) as [S K].
    assert (F' : Forall (suspended_ok (wire b ++ [Got r answer]))
                   (remove_nth i (inflight b))).
    { apply Forall_suspended_mono, Forall_remove_nth, Forall_forall. exact F. }
    assert (W' : analyze_follows_upload (wire b ++ [Got r answer]))
      by (apply follows_snoc_other; [exact W | discriminate]).
    destruct K as [[f [= -> ->]]|[document_id [= -> ->]]].
    + destruct (uploadedDocument answer) as [document_id|] eqn:U.
      * rewrite (@afterUpload_success now answer _ document_id U). simpl. split.
        -- apply follows_snoc; [exact W'|].
           intros document_id' [= <-].
           exists (wire b), f, answer. repeat split; assumption.
        -- apply Forall_app. split; [apply Forall_suspended_mono; exact F'|].
           constructor; [|constructor]. split.
           ++ apply in_or_app. right. left. reflexivity.
           ++ right. exists document_id. reflexivity.
      * destruct (@afterUpload_failure now answer
                    {| view := view b; inflight := remove_nth i (inflight b);
                       wire := wire b ++ [Got (PostUpload f) answer];
                       console := console b |} U) as (Ei & Ew & _).
        split; [rewrite Ew; exact W' | rewrite Ei, Ew; exact F'].
    + destruct (afterAnalyze_quiet now answer
                  {| view := view b; inflight := remove_nth i (inflight b);
                     wire := wire b ++ [Got (PostAnalyze document_id) answer];
                     console := console b |}) as (Ei & Ew).
      split; [rewrite Ew; exact W' | rewrite Ei, Ew; exact F'].
Qed.

Lemma page_ok_exec (trace : list (N * event ui)) (b : browser state) :
  page_ok b -> page_ok (exec handler trace b).
Proof.
  revert b; induction trace as [|[now e] trace IH]; intros b H; simpl; [exact H|].
  apply IH, page_ok_step, H.
Qed.

End PageFacts.

(** C2.  In every run of the analysis page the analyze request goes out
    only once an upload has completed successfully, right after its
    response, and is keyed by exactly the document id that response
    returned; an upload that fails is followed by no analyze request. *)
Theorem C2_analyze_only_after_successful_upload
    (trace : list (N * event AnalyzePage.ui)) :
  let w := wire (exec AnalyzePage.handler trace (mount AnalyzePage.initial)) in
  analyze_follows_upload w
  /\ (forall document_id, In (Sent (PostAnalyze document_id)) w ->
        exists f uploadRes,
          In (Got (PostUpload f) uploadRes) w
          /\ uploadedDocument uploadRes = Some document_id)
  /\ (forall now (b : browser AnalyzePage.state) uploadRes,
        uploadedDocument uploadRes = None ->
        wire (run now (AnalyzePage.afterUpload uploadRes) b) = wire b
        /\ inflight (run now (AnalyzePage.afterUpload uploadRes) b) = inflight b).
Proof.
  intros w.
  assert (H : analyze_follows_upload w)
    by (apply (PageFacts.page_ok_exec trace PageFacts.page_ok_mount)).
  split; [exact H|]. split.
  - intros document_id I. apply in_split in I. destruct I as (before & after & E).
    destruct (H _ _ _ E) as (earlier & f & uploadRes & -> & _ & U).
    exists f, uploadRes. split; [|exact U].
    rewrite E. apply in_or_app. left. apply in_or_app. right. left. reflexivity.
  - intros now b uploadRes U.
    destruct (@PageFacts.afterUpload_failure now uploadRes b U) as (Ei & Ew & _).
    split; assumption.
Qed.

(** ** Semantic search *)

Module SearchFacts.
Import SemanticClauseSearch.

Lemma nonblank_truthy (q : js_string) :
  JsString.trim q <> [] -> JsString.truthy (JsString.trim q) = true.
Proof. destruct (JsString.trim q); [intros H; destruct (H eq_refl) | reflexivity]. Qed.

Lemma blank_falsy (q : js_string) :
  JsString.trim q = [] -> JsString.truthy (JsString.trim q) = false.
Proof. intros ->. reflexivity. Qed.

Lemma type_query documentId now q (b : browser state) :
  step (handler documentId) now (User (TypeQuery q)) b =
    {| view := setSearchQuery q (view b); inflight := inflight b;
       wire := wire b; console := console b |}.
Proof. reflexivity. Qed.

Lemma submit_accepted documentId now (b : browser state) :
  JsString.trim (searchQuery (view b)) <> [] ->
  step (handler documentId) now (User Submit) b =
    {| view := setLoading true (view b);
       inflight := inflight b
                   ++ [(PostSimilarClauses documentId (searchQuery (view b)), afterSearch)];
       wire := wire b ++ [Sent (PostSimilarClauses documentId (searchQuery (view b)))];
       console := console b |}.
Proof.
  intros H. unfold step, handler, handleSearch.
  rewrite (nonblank_truthy _ H). reflexivity.
Qed.

Lemma submit_blank documentId now (b : browser state) :
  JsString.trim (searchQuery (view b)) = [] ->
  step (handler documentId) now (User Submit) b = b.
Proof.
  intros H. unfold step, handler, handleSearch.
  rewrite (blank_falsy _ H). reflexivity.
Qed.

(** A response whose body parses becomes the search result, whatever its
    status and whatever was shown before. *)
Lemma deliver_parsed documentId now (b : browser state) i r resp data :
  nth_error (inflight b) i = Some (r, afterSearch) ->
  json resp = inr data ->
  step (handler documentId) now (Network i (Fulfilled resp)) b =
    {| view := setLoading false (setResults data (view b));
       inflight := remove_nth i (inflight b);
       wire := wire b ++ [Got r (Fulfilled resp)];
       console := console b |}.
Proof.
  intros N J. unfold step. rewrite N. unfold afterSearch. rewrite J. reflexivity.
Qed.

Lemma run_afterSearch_inflight now answer (b : browser state) :
  inflight (run now (afterSearch answer) b) = inflight b.
Proof.
  destruct answer as [e|r]; simpl; [reflexivity|].
  destruct (json r); reflexivity.
Qed.

Lemma all_searches_step documentId now e (b : browser state) :
  all_searches b -> all_searches (step (handler documentId) now e b).
Proof.
  unfold all_searches. intros F. destruct e as [u|i answer]; simpl.
  - destruct u as [q| |ex]; simpl; [exact F| |];
      unfold handleSearch;
      destruct (negb (JsString.truthy (JsString.trim (searchQuery (view b)))));
      simpl; try exact F;
      (apply Forall_app; split; [exact F | repeat constructor]).
  - destruct (nth_error (inflight b) i) as [[r k]|] eqn:N; [|exact F].
    pose proof (nth_error_In _ _ N) as I.
    rewrite Forall_forall in F. pose proof (F _ I) as K. simpl in K. subst k.
    rewrite run_afterSearch_inflight. simpl.
    apply PageFacts.Forall_remove_nth, Forall_forall. exact F.
Qed.

Lemma all_searches_exec documentId trace (b : browser state) :
  all_searches b -> all_searches (exec (handler documentId) trace b).
Proof.
  revert b; induction trace as [|[now e] trace IH]; intros b H; simpl; [exact H|].
  apply IH, all_searches_step, H.
Qed.

(** Last response wins: in any run of the search box, whichever
    outstanding request is answered with a body that parses, that body
    replaces the search result. *)
Lemma last_response_wins documentId trace (i : nat) now resp data :
  let b := exec (handler documentId) trace (mount initial) in
  (i < List.length (inflight b))%nat ->
  json resp = inr data ->
  let b' := step (handler documentId) now (Network i (Fulfilled resp)) b in
  results (view b') = data /\ loading (view b') = false.
Proof.
  intros b L J b'.
  assert (A : all_searches b) by (apply all_searches_exec; constructor).
  destruct (nth_error (inflight b) i) as [[r k]|] eqn:N;
    [|apply nth_error_None in N; lia].
  pose proof (nth_error_In _ _ N) as I.
  unfold all_searches in A. rewrite Forall_forall in A.
  pose proof (A _ I) as K. simpl in K. subst k.
  unfold b'. rewrite (@deliver_parsed documentId now b i r resp data N J). split; reflexivity.
Qed.

Lemma race_outcome documentId qA qB respA respB dataA dataB :
  JsString.trim qA <> [] -> JsString.trim qB <> [] ->
  json respA = inr dataA -> json respB = inr dataB ->
  staleResponseRace documentId qA qB respA respB =
    {| view := {| searchQuery := qB; results := dataA; loading := false |};
       inflight := [];
       wire := [ Sent (PostSimilarClauses documentId qA);
                 Sent (PostSimilarClauses documentId qB);
                 Got (PostSimilarClauses documentId qB) (Fulfilled respB);
                 Got (PostSimilarClauses documentId qA) (Fulfilled respA) ];
       console := [] |}.
Proof.
  intros HA HB JA JB. unfold staleResponseRace, staleResponseTrace.
  cbn [exec].
  rewrite (type_query documentId 1 qA).
  rewrite (@submit_accepted documentId 2) by exact HA.
  rewrite (type_query documentId 3 qB).
  rewrite (@submit_accepted documentId 4) by exact HB.
  cbn [mount view inflight wire console setSearchQuery setLoading
       searchQuery results loading app].
  erewrite (@deliver_parsed documentId 5 _ 1 _ respB dataB);
    [|reflexivity|exact JB].
  cbn [view inflight wire console setResults setLoading searchQuery results loading app
       remove_nth firstn skipn].
  erewrite (@deliver_parsed documentId 6 _ 0 _ respA dataA);
    [|reflexivity|exact JA].
  reflexivity.
Qed.

Lemma before_stale_outcome documentId qA qB respA respB dataB :
  JsString.trim qA <> [] -> JsString.trim qB <> [] ->
  json respB = inr dataB ->
  view (beforeStaleResponse documentId qA qB respA respB) =
    {| searchQuery := qB; results := dataB; loading := false |}.
Proof.
  intros HA HB JB. unfold beforeStaleResponse, staleResponseTrace.
  cbn [exec firstn].
  rewrite (type_query documentId 1 qA).
  rewrite (@submit_accepted documentId 2) by exact HA.
  rewrite (type_query documentId 3 qB).
  rewrite (@submit_accepted documentId 4) by exact HB.
  cbn [mount view inflight wire console setSearchQuery setLoading
       searchQuery results loading app].
  erewrite (@deliver_parsed documentId 5 _ 1 _ respB dataB);
    [|reflexivity|exact JB].
  reflexivity.
Qed.

(** Through the rendered form a search starts only when none is under
    way. *)
Lemma one_search_step documentId now e (b : browser state) :
  one_search_at_most b ->
  match e with User u => enabled u (view b) = true | Network _ _ => True end ->
  one_search_at_most (step (handler documentId) now e b).
Proof.
  intros K En. destruct e as [u|i answer].
  - destruct u as [q| |ex].
    + simpl. exact K.
    + simpl in En. rewrite negb_true_iff, orb_false_iff, negb_false_iff in En.
      destruct En as [L T].
      destruct K as [[_ I]|[L' _]]; [|congruence].
      unfold step, handler, handleSearch. rewrite T. simpl.
      right. split; [reflexivity|]. rewrite I. eexists. reflexivity.
    + simpl in En. rewrite andb_true_iff, !negb_true_iff in En.
      destruct En as [_ L].
      destruct K as [[_ I]|[L' _]]; [|congruence].
      unfold step, handler, handleSearch.
      destruct (negb (JsString.truthy (JsString.trim (searchQuery (view b))))); simpl.
      * left. split; assumption.
      * right. split; [reflexivity|]. rewrite I. eexists. reflexivity.
  - simpl. destruct K as [[L I]|[L [r I]]]; rewrite I.
    + destruct i; simpl; left; split; assumption.
    + destruct i as [|i]; simpl.
      * left. destruct answer as [e|resp]; simpl; [split; reflexivity|].
        destruct (json resp); simpl; split; reflexivity.
      * destruct i; simpl; right; (split; [exact L | exists r; exact I]).
Qed.

Lemma one_search_offered documentId trace (b : browser state) :
  one_search_at_most b ->
  offered (handler documentId) enabled trace b ->
  one_search_at_most (exec (handler documentId) trace b).
Proof.
  revert b; induction trace as [|[now e] trace IH]; intros b K O; simpl; [exact K|].
  destruct O as [En O]. apply IH; [|exact O].
  apply one_search_step; assumption.
Qed.

End SearchFacts.

(** ** Conversation *)

Module ChatFacts.
Import Chatbot.

Lemma send_accepted c p now (b : browser state) :
  JsString.trim (input (view b)) <> [] -> loading (view b) = false ->
  step (handler c p) now (User Send) b =
    {| view :=
         setLoading true
           (setInput []
              (setMessages
                 (fun _ => messages (view b)
                           ++ [ {| msg_role := user; content := Str (input (view b));
                                   timestamp := now |} ])
                 (view b)));
       inflight := inflight b
                   ++ [(PostChatAsk (askBody p (input (view b))), afterAsk c)];
       wire := wire b ++ [Sent (PostChatAsk (askBody p (input (view b))))];
       console := console b |}.
Proof.
  intros H L. unfold step, handler, handleSend.
  rewrite (SearchFacts.nonblank_truthy _ H), L. reflexivity.
Qed.

Lemma send_rejected c p now (b : browser state) :
  JsString.trim (input (view b)) = [] \/ loading (view b) = true ->
  step (handler c p) now (User Send) b = b.
Proof.
  intros H. unfold step, handler, handleSend.
  destruct H as [H|H].
  - rewrite (SearchFacts.blank_falsy _ H). reflexivity.
  - rewrite H, orb_true_r. reflexivity.
Qed.

(** While an ask is pending no user event touches the history, the
    pending flag or the network. *)
Lemma user_event_while_pending c p now u (b : browser state) :
  loading (view b) = true ->
  let b' := step (handler c p) now (User u) b in
  messages (view b') = messages (view b)
  /\ loading (view b') = true
  /\ inflight b' = inflight b
  /\ wire b' = wire b.
Proof.
  intros L. destruct u as [q|q| | |].
  - simpl. repeat split; assumption.
  - simpl. repeat split; assumption.
  - cbv zeta. rewrite send_rejected by (right; exact L). repeat split. exact L.
  - simpl. repeat split; assumption.
  - simpl. repeat split; assumption.
Qed.

Lemma user_events_while_pending c p (others : list (N * ui)) (b : browser state) :
  loading (view b) = true ->
  let b' := exec (handler c p) (userEvents others) b in
  messages (view b') = messages (view b)
  /\ loading (view b') = true
  /\ inflight b' = inflight b
  /\ wire b' = wire b.
Proof.
  revert b; induction others as [|[now u] others IH]; intros b L.
  - simpl. repeat split. exact L.
  - cbv zeta. cbn [userEvents map exec fst snd]. fold (userEvents others).
    destruct (user_event_while_pending c p now u b L) as (M & L' & I & W).
    destruct (IH _ L') as (M2 & L2 & I2 & W2).
    rewrite M2, L2, I2, W2, M, I, W. repeat split; reflexivity.
Qed.

(** The one message a settled request appends. *)
Lemma afterAsk_appends c now answer (b : browser state) :
  exists reply,
    run now (afterAsk c answer) b =
      {| view := setLoading false (setMessages (fun prev => prev ++ [reply]) (view b));
         inflight := inflight b;
         wire := wire b;
         console := console (run now (afterAsk c answer) b) |}
    /\ msg_role reply = assistant
    /\ timestamp reply = now
    /\ (forall a, returnedAnswer answer = Some a -> content reply = a)
    /\ (returnedAnswer answer = None ->
        content reply = Str (errorText c) \/ content reply = Str noAnswerText).
Proof.
  destruct answer as [e|r]; simpl.
  - eexists. split; [reflexivity|]. simpl. repeat split; [discriminate | left; reflexivity].
  - destruct (json r) as [e|data]; simpl.
    + eexists. split; [reflexivity|]. simpl.
      repeat split; [discriminate | left; reflexivity].
    + destruct (Js.get data (lit "answer")) as [e|a]; simpl.
      * eexists. split; [reflexivity|]. simpl.
        repeat split; [discriminate | left; reflexivity].
      * eexists. split; [reflexivity|]. simpl. unfold Js.or.
        destruct (Js.truthy a); repeat split;
          try discriminate; try (intros ? [= <-]; reflexivity).
        right; reflexivity.
Qed.

Lemma chat_ok_step c p now e (b : browser state) :
  chat_ok c b -> chat_ok c (step (handler c p) now e b).
Proof.
  intros H. destruct e as [u|i answer].
  - destruct H as [[L I]|[L [r I]]].
    + destruct u as [q|q| | |]; try (simpl; left; split; assumption).
      destruct (JsString.trim (input (view b))) as [|u0 rest] eqn:T.
      * rewrite send_rejected by (left; exact T). left; split; assumption.
      * rewrite send_accepted by (rewrite ?T; congruence).
        right. split; [reflexivity|]. simpl. rewrite I. eexists. reflexivity.
    + destruct (user_event_while_pending c p now u b L) as (_ & L' & I' & _).
      right. split; [exact L'|]. exists r. rewrite I'. exact I.
  - simpl. destruct H as [[L I]|[L [r I]]].
    + rewrite I. destruct i; simpl; left; split; assumption.
    + rewrite I. destruct i as [|i]; simpl.
      * destruct (afterAsk_appends c now answer
                    {| view := view b; inflight := remove_nth 0 [(r, afterAsk c)];
                       wire := wire b ++ [Got r answer]; console := console b |})
          as (reply & E & _).
        rewrite E. left. split; reflexivity.
      * destruct i; simpl; right; (split; [exact L | exists r; exact I]).
Qed.

Lemma chat_ok_exec c p trace (b : browser state) :
  chat_ok c b -> chat_ok c (exec (handler c p) trace b).
Proof.
  revert b; induction trace as [|[now e] trace IH]; intros b H; simpl; [exact H|].
  apply IH, chat_ok_step, H.
Qed.

Lemma chat_ok_mount c now : chat_ok c (mount (initial c now)).
Proof. left. split; reflexivity. Qed.

(** The history only ever grows at its end. *)
Lemma step_appends c p now e (b : browser state) :
  chat_ok c b ->
  exists suffix,
    messages (view (step (handler c p) now e b)) = messages (view b) ++ suffix.
Proof.
  intros K. destruct e as [u|i answer].
  - destruct u as [q|q| | |]; try (exists []; simpl; rewrite app_nil_r; reflexivity).
    destruct (JsString.trim (input (view b))) as [|u0 rest] eqn:T.
    + rewrite send_rejected by (left; exact T).
      exists []. rewrite app_nil_r. reflexivity.
    + destruct (loading (view b)) eqn:L.
      * rewrite send_rejected by (right; exact L).
        exists []. rewrite app_nil_r. reflexivity.
      * rewrite send_accepted by (rewrite ?T; congruence).
        eexists. reflexivity.
  - simpl. destruct K as [[L I]|[L [r I]]]; rewrite I.
    + exists []. destruct i; simpl; rewrite app_nil_r; reflexivity.
    + destruct i as [|i]; simpl.
      * destruct (afterAsk_appends c now answer
                    {| view := view b; inflight := remove_nth 0 [(r, afterAsk c)];
                       wire := wire b ++ [Got r answer]; console := console b |})
          as (reply & E & _).
        rewrite E. exists [reply]. reflexivity.
      * exists []. destruct i; simpl; rewrite app_nil_r; reflexivity.
Qed.

Lemma history_append_only c p trace (b : browser state) :
  chat_ok c b ->
  exists suffix,
    messages (view (exec (handler c p) trace b)) = messages (view b) ++ suffix.
Proof.
  revert b; induction trace as [|[now e] trace IH]; intros b K; simpl.
  - exists []. rewrite app_nil_r. reflexivity.
  - destruct (@step_appends c p now e b K) as (s1 & E1).
    destruct (IH _ (@chat_ok_step c p now e b K)) as (s2 & E2).
    exists (s1 ++ s2). rewrite E2, E1, app_assoc. reflexivity.
Qed.

End ChatFacts.

(** C3.  An accepted ask (question not blank, nothing pending) first adds
    the user message to the history, and the settled request then adds
    exactly one assistant message: the returned answer when there is one,
    a fixed apology otherwise.  Nothing else touches the history in
    between, so a completed ask lengthens it by exactly two. *)
Theorem C3_ask_appends_user_then_one_reply
    (c : Chatbot.component) (p : Chatbot.props) (mounted : N)
    (trace : list (N * event Chatbot.ui))
    (asked : N) (others : list (N * Chatbot.ui)) (settled : N) (answer : reply) :
  let b := exec (Chatbot.handler c p) trace (mount (Chatbot.initial c mounted)) in
  JsString.trim (Chatbot.input (view b)) <> [] ->
  Chatbot.loading (view b) = false ->
  let b1 := step (Chatbot.handler c p) asked (User Chatbot.Send) b in
  let b2 := exec (Chatbot.handler c p) (userEvents others) b1 in
  let b3 := step (Chatbot.handler c p) settled (Network 0 answer) b2 in
  let question :=
    {| Chatbot.msg_role := Chatbot.user;
       Chatbot.content := Str (Chatbot.input (view b));
       Chatbot.timestamp := asked |} in
  exists reply,
    Chatbot.messages (view b1) = Chatbot.messages (view b) ++ [question]
    /\ Chatbot.messages (view b2) = Chatbot.messages (view b1)
    /\ Chatbot.messages (view b3) = Chatbot.messages (view b) ++ [question; reply]
    /\ Chatbot.msg_role reply = Chatbot.assistant
    /\ (forall a, returnedAnswer answer = Some a -> Chatbot.content reply = a)
    /\ (returnedAnswer answer = None ->
        Chatbot.content reply = Str (Chatbot.errorText c)
        \/ Chatbot.content reply = Str Chatbot.noAnswerText)
    /\ List.length (Chatbot.messages (view b3))
       = (List.length (Chatbot.messages (view b)) + 2)%nat
    /\ Chatbot.loading (view b3) = false
    /\ inflight b3 = []
    /\ (forall later, exists suffix,
          Chatbot.messages (view (exec (Chatbot.handler c p) later b3))
          = Chatbot.messages (view b3) ++ suffix).
Proof.
  intros b H L b1 b2 b3 question.
  assert (K : chat_ok c b)
    by (apply ChatFacts.chat_ok_exec, ChatFacts.chat_ok_mount).
  assert (I : inflight b = []).
  { destruct K as [[_ I]|[L' _]]; [exact I | congruence]. }
  pose proof (ChatFacts.send_accepted c p asked b H L) as E1. fold b1 in E1.
  assert (M1 : Chatbot.messages (view b1) = Chatbot.messages (view b) ++ [question])
    by (rewrite E1; reflexivity).
  assert (L1 : Chatbot.loading (view b1) = true) by (rewrite E1; reflexivity).
  assert (I1 : inflight b1 =
               [(PostChatAsk (Chatbot.askBody p (Chatbot.input (view b))),
                 Chatbot.afterAsk c)])
    by (rewrite E1; simpl; rewrite I; reflexivity).
  destruct (ChatFacts.user_events_while_pending c p others b1 L1) as (M2 & L2 & I2 & _).
  fold b2 in M2, L2, I2.
  destruct (ChatFacts.afterAsk_appends c settled answer
              {| view := view b2; inflight := remove_nth 0 (inflight b2);
                 wire := wire b2
                         ++ [Got (PostChatAsk (Chatbot.askBody p (Chatbot.input (view b))))
                               answer];
                 console := console b2 |})
    as (reply & E3 & R & _ & A & F).
  assert (E3' : b3 =
                run settled (Chatbot.afterAsk c answer)
                  {| view := view b2; inflight := remove_nth 0 (inflight b2);
                     wire := wire b2
                             ++ [Got (PostChatAsk
                                        (Chatbot.askBody p (Chatbot.input (view b))))
                                   answer];
                     console := console b2 |}).
  { unfold b3, step. rewrite I2, I1. reflexivity. }
  rewrite E3 in E3'.
  assert (M3 : Chatbot.messages (view b3)
               = Chatbot.messages (view b) ++ [question; reply]).
  { rewrite E3'. cbn [view Chatbot.setLoading Chatbot.setMessages Chatbot.messages].
    rewrite M2, M1, <- app_assoc. reflexivity. }
  exists reply.
  split; [exact M1|]. split; [exact M2|]. split; [exact M3|].
  split; [exact R|]. split; [exact A|]. split; [exact F|].
  split; [rewrite M3, length_app; reflexivity|].
  split; [rewrite E3'; reflexivity|].
  assert (I3 : inflight b3 = [])
    by (rewrite E3'; cbn [inflight]; rewrite I2, I1; reflexivity).
  split; [exact I3|].
  intros later. apply ChatFacts.history_append_only.
  left. split; [rewrite E3'; reflexivity | exact I3].
Qed.

(** C8.  The chat request of an accepted ask carries as [document_text]
    the first 3000 code units of the document text, the whole text when
    it is shorter: the cut depends on nothing but the text, so every ask
    on the same text sends the same prefix. *)
Theorem C8_document_text_is_prefix_of_3000_units
    (c : Chatbot.component) (p : Chatbot.props) (now : N)
    (b : browser Chatbot.state) :
  JsString.trim (Chatbot.input (view b)) <> [] ->
  Chatbot.loading (view b) = false ->
  exists body,
    wire (step (Chatbot.handler c p) now (User Chatbot.Send) b)
      = wire b ++ [Sent (PostChatAsk body)]
    /\ question body = Chatbot.input (view b)
    /\ document_text body = firstn 3000 (Chatbot.documentText p)
    /\ List.length (document_text body)
       = Nat.min 3000 (List.length (Chatbot.documentText p))
    /\ ((List.length (Chatbot.documentText p) <= 3000)%nat ->
        document_text body = Chatbot.documentText p)
    /\ (forall c' p' now' (b' : browser Chatbot.state),
          Chatbot.documentText p' = Chatbot.documentText p ->
          JsString.trim (Chatbot.input (view b')) <> [] ->
          Chatbot.loading (view b') = false ->
          exists body',
            wire (step (Chatbot.handler c' p') now' (User Chatbot.Send) b')
              = wire b' ++ [Sent (PostChatAsk body')]
            /\ document_text body' = document_text body).
Proof.
  intros H L.
  assert (P : forall t : js_string, JsString.substring t 0 3000 = firstn 3000 t)
    by (intros t; exact (JsStringFacts.substring_prefix t 3000)).
  exists (Chatbot.askBody p (Chatbot.input (view b))).
  split; [rewrite (ChatFacts.send_accepted c p now b H L); reflexivity|].
  split; [reflexivity|].
  cbn [document_text Chatbot.askBody]. rewrite P.
  split; [reflexivity|]. split; [apply length_firstn|].
  split; [intros S; apply firstn_all2; exact S|].
  intros c' p' now' b' T H' L'.
  exists (Chatbot.askBody p' (Chatbot.input (view b'))).
  split; [rewrite (ChatFacts.send_accepted c' p' now' b' H' L'); reflexivity|].
  cbn [document_text Chatbot.askBody]. rewrite P, T. reflexivity.
Qed.

Lemma C3_ask_appends_user_then_one_reply_witness :
  List.length
    (Chatbot.messages
       (view
          (step (Chatbot.handler Chatbot.FloatingChatbot sampleProps) 3%N
             (Network 0 (Fulfilled sampleAnswer))
             (exec (Chatbot.handler Chatbot.FloatingChatbot sampleProps)
                (userEvents [(2%N, Chatbot.TypeInput (lit "And then?"))])
                (step (Chatbot.handler Chatbot.FloatingChatbot sampleProps) 2%N
                   (User Chatbot.Send)
                   (exec (Chatbot.handler Chatbot.FloatingChatbot sampleProps)
                      [(1%N, User (Chatbot.TypeInput (lit "Who may terminate?")))]
                      (mount (Chatbot.initial Chatbot.FloatingChatbot 0%N))))))))
  = 3%nat.
Proof.
  destruct (@C3_ask_appends_user_then_one_reply
              Chatbot.FloatingChatbot sampleProps 0%N
              [(1%N, User (Chatbot.TypeInput (lit "Who may terminate?")))]
              2%N [(2%N, Chatbot.TypeInput (lit "And then?"))] 3%N
              (Fulfilled sampleAnswer))
    as (reply & _ & _ & _ & _ & _ & _ & Len & _ & _ & _).
  - vm_compute. discriminate.
  - reflexivity.
  - rewrite Len. reflexivity.
Defined.

Lemma C8_document_text_is_prefix_of_3000_units_witness :
  exists body,
    wire (step (Chatbot.handler Chatbot.DocumentChatbot sampleProps) 2%N
            (User Chatbot.Send)
            (exec (Chatbot.handler Chatbot.DocumentChatbot sampleProps)
               [(1%N, User (Chatbot.TypeInput (lit "Who may terminate?")))]
               (mount (Chatbot.initial Chatbot.DocumentChatbot 0%N))))
      = [Sent (PostChatAsk body)]
    /\ document_text body = Chatbot.documentText sampleProps.
Proof.
  destruct (@C8_document_text_is_prefix_of_3000_units
              Chatbot.DocumentChatbot sampleProps 2%N
              (exec (Chatbot.handler Chatbot.DocumentChatbot sampleProps)
                 [(1%N, User (Chatbot.TypeInput (lit "Who may terminate?")))]
                 (mount (Chatbot.initial Chatbot.DocumentChatbot 0%N))))
    as (body & W & _ & _ & _ & Whole & _).
  - vm_compute. discriminate.
  - reflexivity.
  - exists body. split; [exact W|]. apply Whole. vm_compute. lia.
Defined.

(** C1, as stated, fails: when A's response arrives after B's, the panel
    ends up showing A's result. *)
Lemma C1_stale_response_overwrites_newer_result : ~ last_submitted_query_wins.
Proof.
  intros H.
  specialize (H (lit "doc-001") (lit "payment") (lit "termination")
                (foundNothing "payment")
                (foundNothing "termination")
                (emptyResult "payment") (emptyResult "termination")).
  assert (A : JsString.trim (lit "payment") <> []) by (vm_compute; discriminate).
  assert (B : JsString.trim (lit "termination") <> []) by (vm_compute; discriminate).
  specialize (H A B eq_refl eq_refl eq_refl).
  vm_compute in H. discriminate H.
Qed.

(** C1, amended.  The search box keeps no sequence token.  Its form
    cannot submit while a search is loading, so a run the rendered page
    offers never has two requests outstanding; the race of the claim
    takes two overlapping calls of [handleSearch], which the handler
    itself does not refuse.  Then the response that arrives last wins:
    B's result is on display once B's response has arrived, and A's late
    response replaces it.  In any run, whichever outstanding request is
    answered with a body that parses, that body becomes the result. *)
Theorem C1_last_arrived_response_wins
    (documentId qA qB : js_string) (respA respB : response) (dataA dataB : value) :
  JsString.trim qA <> [] -> JsString.trim qB <> [] ->
  json respA = inr dataA -> json respB = inr dataB ->
  SemanticClauseSearch.results
    (view (beforeStaleResponse documentId qA qB respA respB)) = dataB
  /\ SemanticClauseSearch.results
       (view (staleResponseRace documentId qA qB respA respB)) = dataA
  /\ SemanticClauseSearch.displayed
       (view (staleResponseRace documentId qA qB respA respB))
     = (if Js.truthy dataA then Some dataA else None)
  /\ wire (staleResponseRace documentId qA qB respA respB)
     = [ Sent (PostSimilarClauses documentId qA);
         Sent (PostSimilarClauses documentId qB);
         Got (PostSimilarClauses documentId qB) (Fulfilled respB);
         Got (PostSimilarClauses documentId qA) (Fulfilled respA) ]
  /\ (forall trace (i : nat) now resp data,
        let b := exec (SemanticClauseSearch.handler documentId) trace
                   (mount SemanticClauseSearch.initial) in
        (i < List.length (inflight b))%nat ->
        json resp = inr data ->
        SemanticClauseSearch.results
          (view (step (SemanticClauseSearch.handler documentId) now
                   (Network i (Fulfilled resp)) b)) = data)
  /\ (forall trace,
        offered (SemanticClauseSearch.handler documentId)
          SemanticClauseSearch.enabled trace (mount SemanticClauseSearch.initial) ->
        (List.length
           (inflight (exec (SemanticClauseSearch.handler documentId) trace
                        (mount SemanticClauseSearch.initial))) <= 1)%nat)
  /\ ~ offered (SemanticClauseSearch.handler documentId)
        SemanticClauseSearch.enabled (staleResponseTrace qA qB respA respB)
        (mount SemanticClauseSearch.initial).
Proof.
  intros HA HB JA JB.
  split; [rewrite (@SearchFacts.before_stale_outcome documentId qA qB respA respB dataB HA HB JB);
          reflexivity|].
  rewrite (@SearchFacts.race_outcome documentId qA qB respA respB dataA dataB HA HB JA JB).
  split; [reflexivity|].
  split; [unfold SemanticClauseSearch.displayed; simpl;
          destruct (Js.truthy dataA); reflexivity|].
  split; [reflexivity|].
  split; [intros trace i now resp data b L J;
          exact (proj1 (@SearchFacts.last_response_wins
                          documentId trace i now resp data L J))|].
  split.
  - intros trace O.
    assert (K : one_search_at_most (mount SemanticClauseSearch.initial))
      by (left; split; reflexivity).
    destruct (@SearchFacts.one_search_offered documentId trace _ K O)
      as [[_ I]|[_ [r I]]]; rewrite I; simpl; lia.
  - unfold staleResponseTrace. cbn [offered].
    intros (_ & _ & _ & En & _). revert En.
    rewrite (SearchFacts.type_query documentId 1 qA).
    rewrite (@SearchFacts.submit_accepted documentId 2) by exact HA.
    rewrite (SearchFacts.type_query documentId 3 qB).
    simpl. discriminate.
Qed.

Lemma C1_last_arrived_response_wins_witness :
  SemanticClauseSearch.results
    (view (staleResponseRace (lit "doc-001") (lit "payment") (lit "termination")
             (foundNothing "payment")
             (foundNothing "termination")))
  = emptyResult "payment".
Proof.
  refine (proj1 (proj2
    (@C1_last_arrived_response_wins (lit "doc-001") (lit "payment") (lit "termination")
       (foundNothing "payment")
       (foundNothing "termination")
       (emptyResult "payment") (emptyResult "termination") _ _ _ _))).
  - vm_compute. discriminate.
  - vm_compute. discriminate.
  - reflexivity.
  - reflexivity.
Defined.

(** C4, as stated, fails: a blank search and a blank question are dropped
    without a trace, so no error of any kind comes out of them. *)
Lemma C4_blank_input_is_silently_ignored :
  ~ blank_search_fails /\ ~ blank_ask_fails.
Proof.
  split; intros H.
  - pose (b := {| view := {| SemanticClauseSearch.searchQuery := lit "   ";
                             SemanticClauseSearch.results := Null;
                             SemanticClauseSearch.loading := false |};
                  inflight := []; wire := []; console := [] |}).
    specialize (H (lit "doc-001") 1%N b eq_refl).
    rewrite (@SearchFacts.submit_blank (lit "doc-001") 1%N b eq_refl) in H.
    destruct H as [H|H]; apply H; reflexivity.
  - pose (b := exec (Chatbot.handler Chatbot.DocumentChatbot sampleProps)
                 [(1%N, User (Chatbot.TypeInput (lit "   ")))]
                 (mount (Chatbot.initial Chatbot.DocumentChatbot 0%N))).
    specialize (H Chatbot.DocumentChatbot sampleProps 2%N b eq_refl).
    rewrite (@ChatFacts.send_rejected Chatbot.DocumentChatbot sampleProps 2%N b
               (or_introl eq_refl)) in H.
    destruct H as [H|H]; apply H; reflexivity.
Qed.

(** C4, amended.  Each validation condition stops its handler at the
    guard, before any request: with no file chosen the page only records
    the message "Please select a file"; a search whose query is empty or
    all white space, and an ask whose question is blank after trimming or
    that comes while another ask is pending, change nothing at all. *)
Theorem C4_validation_stops_before_network :
  (forall now (b : browser AnalyzePage.state),
     AnalyzePage.file (view b) = None ->
     step AnalyzePage.handler now (User AnalyzePage.ClickAnalyze) b =
       {| view := AnalyzePage.setError (lit "Please select a file") (view b);
          inflight := inflight b; wire := wire b; console := console b |})
  /\ (forall documentId now (b : browser SemanticClauseSearch.state),
        forallb JsString.is_white (SemanticClauseSearch.searchQuery (view b)) = true ->
        step (SemanticClauseSearch.handler documentId) now
          (User SemanticClauseSearch.Submit) b = b)
  /\ (forall c p now (b : browser Chatbot.state),
        JsString.trim (Chatbot.input (view b)) = []
        \/ Chatbot.loading (view b) = true ->
        step (Chatbot.handler c p) now (User Chatbot.Send) b = b).
Proof.
  split; [|split].
  - intros now b F. unfold step, AnalyzePage.handler, AnalyzePage.handleUploadAndAnalyze.
    rewrite F. reflexivity.
  - intros documentId now b W. apply SearchFacts.submit_blank.
    apply JsStringFacts.trim_nil_iff. exact W.
  - intros c p now b H. apply ChatFacts.send_rejected. exact H.
Qed.

(** C7, as stated, fails.  Only the page checks [ok].  The search box,
    the classification, the comparison and the chat read the body of a
    non-2xx response as if it were a result, and a failed upload reports
    a fixed message that leaves the response text out. *)
Lemma C7_non_2xx_bodies_are_processed :
  ~ search_rejects_non_2xx
  /\ ~ classify_rejects_non_2xx
  /\ ~ compare_rejects_non_2xx
  /\ ~ chat_rejects_non_2xx
  /\ ~ upload_surfaces_body.
Proof.
  repeat split.
  - intros H.
    specialize (H 1%N (mount SemanticClauseSearch.initial) serverError eq_refl).
    vm_compute in H. discriminate H.
  - intros H.
    specialize (H 1%N (mount DocumentClassification.initial) serverError eq_refl).
    vm_compute in H. discriminate H.
  - intros H.
    specialize (H 1%N (mount Comparison.initial) serverError eq_refl).
    vm_compute in H. discriminate H.
  - intros H.
    specialize (H Chatbot.FloatingChatbot 1%N
                  (mount (Chatbot.initial Chatbot.FloatingChatbot 0%N))
                  refusal eq_refl).
    destruct H as (apology & [A|A] & M); subst apology;
      vm_compute in M; discriminate M.
  - intros H.
    specialize (H 1%N (mount AnalyzePage.initial) tooLarge eq_refl).
    destruct H as (before & after & E).
    apply (f_equal (@List.length _)) in E. rewrite !length_app in E.
    assert (L1 : List.length
                   (AnalyzePage.error
                      (view (run 1%N (AnalyzePage.afterUpload (Fulfilled tooLarge))
                               (mount AnalyzePage.initial)))) = 13%nat)
      by reflexivity.
    assert (L2 : List.length (text tooLarge) = 14%nat) by reflexivity.
    rewrite L1, L2 in E. lia.
Qed.

(** C7, amended.  On the upload and the analyze request every non-2xx
    response is a failure whatever its body: the workflow stops, no
    result is stored and no further request is sent.  A failed analysis
    reports the response text verbatim after "Analysis failed: "; a
    failed upload reports the fixed message "Upload failed". *)
Theorem C7_upload_and_analyze_reject_non_2xx :
  (forall now (b : browser AnalyzePage.state) resp,
     ok resp = false ->
     run now (AnalyzePage.afterUpload (Fulfilled resp)) b =
       {| view := {| AnalyzePage.file := AnalyzePage.file (view b);
                     AnalyzePage.uploading := false;
                     AnalyzePage.analyzing := false;
                     AnalyzePage.result := AnalyzePage.result (view b);
                     AnalyzePage.error := lit "Upload failed" |};
          inflight := inflight b; wire := wire b; console := console b |})
  /\ (forall now (b : browser AnalyzePage.state) resp,
        ok resp = false ->
        run now (AnalyzePage.afterAnalyze (Fulfilled resp)) b =
          {| view := {| AnalyzePage.file := AnalyzePage.file (view b);
                        AnalyzePage.uploading := false;
                        AnalyzePage.analyzing := false;
                        AnalyzePage.result := AnalyzePage.result (view b);
                        AnalyzePage.error := lit "Analysis failed: " ++ text resp |};
             inflight := inflight b; wire := wire b; console := console b |})
  /\ (forall resp, ok resp = false -> uploadedDocument (Fulfilled resp) = None).
Proof.
  split; [|split].
  - intros now b resp K. unfold AnalyzePage.afterUpload. rewrite K. reflexivity.
  - intros now b resp K. unfold AnalyzePage.afterAnalyze. rewrite K. reflexivity.
  - intros resp K. unfold uploadedDocument. rewrite K. reflexivity.
Qed.

(* ================================================================== *)
(** * Further properties of the views *)

(** ** Cascades of thresholds *)

Module CascadeFacts.

Lemma ge_upward (x y t : Q) :
  (x <= y)%Q -> Number.ge (Number.Fin x) (Number.Fin t) = true ->
  Number.ge (Number.Fin y) (Number.Fin t) = true.
Proof.
  intros L H. apply NumberFacts.ge_fin. apply NumberFacts.ge_fin in H.
  exact (Qle_trans _ _ _ H L).
Qed.

Lemma ge_false_upward (x y t : Q) :
  (x <= y)%Q -> Number.ge (Number.Fin y) (Number.Fin t) = false ->
  Number.ge (Number.Fin x) (Number.Fin t) = false.
Proof.
  intros L H. destruct (Number.ge (Number.Fin x) (Number.Fin t)) eqn:E; [|reflexivity].
  rewrite (ge_upward t L E) in H. discriminate H.
Qed.

End CascadeFacts.

(** Relates the three scores at one threshold, then splits on them. *)
Ltac at_threshold x y z n d Lxy Lyz :=
  let a := fresh "a" in
  let b := fresh "b" in
  let c := fresh "c" in
  pose proof (@CascadeFacts.ge_upward x y (n # d) Lxy) as a;
  pose proof (@CascadeFacts.ge_upward y z (n # d) Lyz) as b;
  change (Number.Fin (n # d)) with (Number.dec n d) in a, b;
  destruct (Number.ge (Number.Fin x) (Number.dec n d));
  destruct (Number.ge (Number.Fin y) (Number.dec n d));
  destruct (Number.ge (Number.Fin z) (Number.dec n d));
  try (discriminate (a eq_refl)); try (discriminate (b eq_refl));
  clear a b.

(** Every band of every cascade is an interval of scores: a score
    between two scores of one band is in that band too.  This holds for
    the gradient and the icon of the comparison, the colour of a search
    card, the colour of the classification confidence and the gauge of
    the risk card. *)
Theorem score_bands_are_intervals (x y z : Q) :
  (x <= y)%Q -> (y <= z)%Q ->
  (DocumentComparison.getColorForScore (Number.Fin x)
     = DocumentComparison.getColorForScore (Number.Fin z) ->
   DocumentComparison.getColorForScore (Number.Fin y)
     = DocumentComparison.getColorForScore (Number.Fin x))
  /\ (ComparisonIcon.getIconForScore (Number.Fin x)
        = ComparisonIcon.getIconForScore (Number.Fin z) ->
      ComparisonIcon.getIconForScore (Number.Fin y)
        = ComparisonIcon.getIconForScore (Number.Fin x))
  /\ (SemanticClauseSearch.getSimilarityColor (Number.Fin x)
        = SemanticClauseSearch.getSimilarityColor (Number.Fin z) ->
      SemanticClauseSearch.getSimilarityColor (Number.Fin y)
        = SemanticClauseSearch.getSimilarityColor (Number.Fin x))
  /\ (ClassificationLabels.getConfidenceColor (Number.Fin x)
        = ClassificationLabels.getConfidenceColor (Number.Fin z) ->
      ClassificationLabels.getConfidenceColor (Number.Fin y)
        = ClassificationLabels.getConfidenceColor (Number.Fin x))
  /\ (forall level matrix risk,
        let gauge q :=
          RiskGauge.gaugeColor
            {| RiskGauge.overall_score := Some (Number.Fin q);
               RiskGauge.overall_risk_score := risk;
               RiskGauge.risk_level := level;
               RiskGauge.risk_matrix := matrix |} in
        gauge x = gauge z -> gauge y = gauge x)
  /\ (rankIn DocumentComparison.gradients
        (DocumentComparison.getColorForScore (Number.Fin y))
      <= rankIn DocumentComparison.gradients
           (DocumentComparison.getColorForScore (Number.Fin x)))%nat.
Proof.
  intros Lxy Lyz.
  split; [|split; [|split; [|split; [|split]]]].
  - unfold DocumentComparison.getColorForScore.
    at_threshold x y z 9%Z 10%positive Lxy Lyz;
      at_threshold x y z 75%Z 100%positive Lxy Lyz;
      at_threshold x y z 6%Z 10%positive Lxy Lyz;
      at_threshold x y z 4%Z 10%positive Lxy Lyz;
      intros E; try reflexivity; discriminate E.
  - unfold ComparisonIcon.getIconForScore.
    at_threshold x y z 9%Z 10%positive Lxy Lyz;
      at_threshold x y z 75%Z 100%positive Lxy Lyz;
      at_threshold x y z 6%Z 10%positive Lxy Lyz;
      intros E; try reflexivity; discriminate E.
  - unfold SemanticClauseSearch.getSimilarityColor.
    at_threshold x y z 9%Z 10%positive Lxy Lyz;
      at_threshold x y z 75%Z 100%positive Lxy Lyz;
      at_threshold x y z 6%Z 10%positive Lxy Lyz;
      intros E; try reflexivity; discriminate E.
  - unfold ClassificationLabels.getConfidenceColor.
    at_threshold x y z 8%Z 10%positive Lxy Lyz;
      at_threshold x y z 6%Z 10%positive Lxy Lyz;
      intros E; try reflexivity; discriminate E.
  - intros level matrix risk gauge. unfold gauge, RiskGauge.gaugeColor.
    cbn [RiskGauge.overall_score RiskGauge.toNumber].
    change (Number.Fin 70) with (Number.dec 70 1).
    change (Number.Fin 50) with (Number.dec 50 1).
    change (Number.Fin 30) with (Number.dec 30 1).
    at_threshold x y z 70%Z 1%positive Lxy Lyz;
      at_threshold x y z 50%Z 1%positive Lxy Lyz;
      at_threshold x y z 30%Z 1%positive Lxy Lyz;
      intros E; try reflexivity; discriminate E.
  - unfold DocumentComparison.getColorForScore.
    at_threshold x y y 9%Z 10%positive Lxy (Qle_refl y);
      at_threshold x y y 75%Z 100%positive Lxy (Qle_refl y);
      at_threshold x y y 6%Z 10%positive Lxy (Qle_refl y);
      at_threshold x y y 4%Z 10%positive Lxy (Qle_refl y);
      vm_compute; lia.
Qed.

Lemma score_bands_are_intervals_witness :
  DocumentComparison.getColorForScore (Number.Fin (8 # 10))
  = DocumentComparison.getColorForScore (Number.Fin (76 # 100)).
Proof.
  refine (proj1 (@score_bands_are_intervals (76 # 100) (8 # 10) (85 # 100) _ _) _).
  - vm_compute. discriminate.
  - vm_compute. discriminate.
  - reflexivity.
Defined.

(** In the comparison view the icon has four bands where the gradient has
    five: two scores of one gradient share an icon, the icon draws the
    band boundaries exactly where the search view draws them, and 0.5 and
    0.3 share an icon while their gradients differ. *)
Theorem comparison_icon_merges_two_lowest_bands (x y : number) :
  (DocumentComparison.getColorForScore x = DocumentComparison.getColorForScore y ->
   ComparisonIcon.getIconForScore x = ComparisonIcon.getIconForScore y)
  /\ (ComparisonIcon.getIconForScore x = ComparisonIcon.getIconForScore y
      <-> SemanticClauseSearch.getSimilarityColor x
          = SemanticClauseSearch.getSimilarityColor y)
  /\ (ComparisonIcon.getIconForScore (Number.dec 5 10)
        = ComparisonIcon.getIconForScore (Number.dec 3 10)
      /\ DocumentComparison.getColorForScore (Number.dec 5 10)
         <> DocumentComparison.getColorForScore (Number.dec 3 10)).
Proof.
  unfold DocumentComparison.getColorForScore, ComparisonIcon.getIconForScore,
    SemanticClauseSearch.getSimilarityColor.
  split; [|split; [split|]].
  - split_on_thresholds x; split_on_thresholds y;
      intros E; try reflexivity; discriminate E.
  - split_on_thresholds x; split_on_thresholds y;
      intros E; try reflexivity; discriminate E.
  - split_on_thresholds x; split_on_thresholds y;
      intros E; try reflexivity; discriminate E.
  - split; [reflexivity | vm_compute; discriminate].
Qed.

(** ** The risk card *)

Module RiskFacts.

Lemma percentage_value (critical high medium low count : Q) :
  ~ (critical + high + medium + low == 0)%Q ->
  RiskHeatmap.getPercentage
    {| RiskHeatmap.Critical := Number.Fin critical;
       RiskHeatmap.High := Number.Fin high;
       RiskHeatmap.Medium := Number.Fin medium;
       RiskHeatmap.Low := Number.Fin low |} (Number.Fin count)
  = Number.Fin (count / (critical + high + medium + low) * 100).
Proof.
  intros NZ. unfold RiskHeatmap.getPercentage, RiskHeatmap.total.
  cbn [RiskHeatmap.Critical RiskHeatmap.High RiskHeatmap.Medium RiskHeatmap.Low
       Number.add].
  change (Number.strict_eq (Number.Fin (critical + high + medium + low)) Number.zero)
    with (Qeq_bool (critical + high + medium + low) 0).
  destruct (Qeq_bool (critical + high + medium + low) 0) eqn:E.
  - apply Qeq_bool_iff in E. destruct (NZ E).
  - unfold Number.div.
    destruct (Number.sign (critical + high + medium + low)) eqn:S; try reflexivity.
    apply NumberFacts.sign_eq in S. destruct (NZ S).
Qed.

Lemma share_bounds (count total : Q) :
  (0 <= count)%Q -> (count <= total)%Q -> (0 < total)%Q ->
  (0 <= count / total * 100)%Q /\ (count / total * 100 <= 100)%Q.
Proof.
  intros P L T. split.
  - apply Qmult_le_0_compat; [|discriminate].
    apply Qle_shift_div_l; [exact T|]. rewrite Qmult_0_l. exact P.
  - assert (D : (count / total <= 1)%Q)
      by (apply Qle_shift_div_r; [exact T | rewrite Qmult_1_l; exact L]).
    setoid_replace (100 : Q) with (1 * 100)%Q at 2 by reflexivity.
    apply Qmult_le_compat_r; [exact D | discriminate].
Qed.

End RiskFacts.



Lemma bucket_within_total (critical high medium low x : Q) :
  (0 <= critical)%Q -> (0 <= high)%Q -> (0 <= medium)%Q -> (0 <= low)%Q ->
  In x [critical; high; medium; low] ->
  (x <= critical + high + medium + low)%Q.
Proof.
  intros C H M L I.
  assert (A : forall a b : Q, (0 <= b)%Q -> (a <= a + b)%Q).
  { intros a b B. rewrite <- (Qplus_0_r a) at 1.
    apply Qplus_le_compat; [apply Qle_refl | exact B]. }
  assert (A' : forall a b : Q, (0 <= a)%Q -> (b <= a + b)%Q).
  { intros a b B. rewrite <- (Qplus_0_l b) at 1.
    apply Qplus_le_compat; [exact B | apply Qle_refl]. }
  destruct I as [<-|[<-|[<-|[<-|[]]]]].
  - apply Qle_trans with (critical + high)%Q; [apply A; exact H|].
    apply Qle_trans with (critical + high + medium)%Q; apply A; assumption.
  - apply Qle_trans with (critical + high)%Q; [apply A'; exact C|].
    apply Qle_trans with (critical + high + medium)%Q; apply A; assumption.
  - apply Qle_trans with (critical + high + medium)%Q; [|apply A; exact L].
    apply A'. replace 0%Q with (0 + 0)%Q by reflexivity.
    apply Qplus_le_compat; assumption.
  - apply A'. replace 0%Q with (0 + 0 + 0)%Q by reflexivity.
    repeat apply Qplus_le_compat; assumption.
Qed.

(** With counts that are not negative, a bucket has a bar exactly when
    its count is positive, and the bar is its percentage widened to at
    least 15: always between 15 and 100. *)
Theorem bars_are_between_15_and_100 (critical high medium low x : Q) :
  (0 <= critical)%Q -> (0 <= high)%Q -> (0 <= medium)%Q -> (0 <= low)%Q ->
  In x [critical; high; medium; low] ->
  let m := {| RiskHeatmap.Critical := Number.Fin critical;
              RiskHeatmap.High := Number.Fin high;
              RiskHeatmap.Medium := Number.Fin medium;
              RiskHeatmap.Low := Number.Fin low |} in
  let share := (x / (critical + high + medium + low) * 100)%Q in
  ((x == 0)%Q -> RiskGauge.bar m (Number.Fin x) = None)
  /\ ((0 < x)%Q ->
      exists width : Q,
        RiskGauge.bar m (Number.Fin x) = Some (Number.Fin width)
        /\ width = (if Qle_bool 15 share then share else 15)
        /\ (15 <= width)%Q /\ (width <= 100)%Q).
Proof.
  intros C H M L I m share.
  pose proof (bucket_within_total C H M L I) as B.
  unfold RiskGauge.bar. split.
  - intros Z.
    assert (G : Number.gt (Number.Fin x) Number.zero = false).
    { destruct (Number.gt (Number.Fin x) Number.zero) eqn:E; [|reflexivity].
      apply NumberFacts.gt_fin in E. rewrite Z in E. discriminate E. }
    rewrite G. reflexivity.
  - intros P.
    assert (G : Number.gt (Number.Fin x) Number.zero = true)
      by (apply NumberFacts.gt_fin; exact P).
    assert (T : (0 < critical + high + medium + low)%Q)
      by (exact (Qlt_le_trans _ _ _ P B)).
    assert (NZ : ~ (critical + high + medium + low == 0)%Q).
    { intros Z. rewrite Z in T. discriminate T. }
    rewrite G. unfold m. rewrite (RiskFacts.percentage_value x NZ).
    fold share. unfold RiskHeatmap.barWidth. cbn [Number.isNaN Number.ge].
    destruct (RiskFacts.share_bounds (Qlt_le_weak _ _ P) B T) as [_ U].
    fold share in U.
    destruct (Qle_bool 15 share) eqn:E.
    + exists share. repeat split; [|exact U]. apply Qle_bool_iff. exact E.
    + exists 15%Q. repeat split; discriminate.
Qed.

Lemma bars_are_between_15_and_100_witness :
  exists width : Q,
    RiskGauge.bar
      {| RiskHeatmap.Critical := Number.Fin 1; RiskHeatmap.High := Number.Fin 0;
         RiskHeatmap.Medium := Number.Fin 0; RiskHeatmap.Low := Number.Fin 19 |}
      (Number.Fin 1) = Some (Number.Fin width)
    /\ (15 <= width)%Q.
Proof.
  destruct (@bars_are_between_15_and_100 1 0 0 19 1) as [_ W];
    try (vm_compute; discriminate).
  - left. reflexivity.
  - destruct W as (width & E & _ & Lo & _); [reflexivity|].
    exists width. split; [exact E | exact Lo].
Defined.

(** The gauge of the risk card reads the legacy [overall_score] alone.  A
    payload that carries only [overall_risk_score] prints that score
    beside a gauge that is green whatever the score; when both are
    present the figure printed is the new score and the gauge is the one
    of the legacy score. *)
Theorem gauge_follows_legacy_score_only
    (level : js_string) (matrix : option RiskHeatmap.risk_matrix) (risk : number) :
  let fresh := {| RiskGauge.overall_score := None;
                  RiskGauge.overall_risk_score := Some risk;
                  RiskGauge.risk_level := level;
                  RiskGauge.risk_matrix := matrix |} in
  RiskGauge.riskScore fresh = risk
  /\ RiskGauge.gaugeColor fresh
     = "bg-gradient-to-r from-green-500 to-green-600"%string
  /\ (forall legacy,
        let both := {| RiskGauge.overall_score := Some legacy;
                       RiskGauge.overall_risk_score := Some risk;
                       RiskGauge.risk_level := level;
                       RiskGauge.risk_matrix := matrix |} in
        let old := {| RiskGauge.overall_score := Some legacy;
                      RiskGauge.overall_risk_score := None;
                      RiskGauge.risk_level := level;
                      RiskGauge.risk_matrix := matrix |} in
        RiskGauge.riskScore both = risk
        /\ RiskGauge.riskScore old = legacy
        /\ RiskGauge.gaugeColor both = RiskGauge.gaugeColor old).
Proof. repeat split. Qed.

(** ** Ties and the top row of the classification *)

Module TieFacts.





End TieFacts.


(** ** Labels and fallbacks *)

Module LabelFacts.

Lemma own_In {A : Type} (fields : list (string * A)) (key : js_string) (a : A) :
  Literal.own fields key = Some a -> In a (map snd fields).
Proof.
  induction fields as [|[name b] rest IH]; simpl; [discriminate|].
  destruct (JsString.eqb key (lit name)).
  - intros [= ->]. left. reflexivity.
  - intros H. right. apply IH. exact H.
Qed.








End LabelFacts.


(** [getTypeLabel] settles in one step: the label of a label is that
    label.  A type the table does not list is shown unchanged. *)
Theorem getTypeLabel_is_idempotent (type : js_string) :
  (forall label,
     ClassificationLabels.getTypeLabel type = Some label ->
     ClassificationLabels.getTypeLabel label = Some label)
  /\ (Literal.get ClassificationLabels.labels type = Literal.Absent ->
      ClassificationLabels.getTypeLabel type = Some type)
  /\ (ClassificationLabels.getTypeLabel type = None <->
      Literal.inherited type = true).
Proof.
  unfold ClassificationLabels.getTypeLabel, Literal.get.
  destruct (Literal.own ClassificationLabels.labels type) as [a|] eqn:O.
  - split; [|split].
    + intros label [= <-]. apply LabelFacts.own_In in O.
      simpl in O.
      destruct O as [<-|[<-|[<-|[<-|[<-|[<-|[<-|[]]]]]]]]; reflexivity.
    + discriminate.
    + split; [discriminate|]. intros I. exfalso.
      unfold Literal.inherited in I. apply existsb_exists in I.
      destruct I as (name & In_ & E). apply JsStringFacts.eqb_eq in E. subst type.
      simpl in In_.
      repeat (destruct In_ as [<-|In_]; [vm_compute in O; discriminate O|]).
      destruct In_.
  - destruct (Literal.inherited type) eqn:I.
    + split; [discriminate|]. split; [discriminate | tauto].
    + split; [|split; [reflexivity | split; discriminate]].
      intros label [= <-]. rewrite O, I. reflexivity.
Qed.

Lemma getTypeLabel_is_idempotent_witness :
  ClassificationLabels.getTypeLabel (lit "Non-Disclosure Agreement")
  = Some (lit "Non-Disclosure Agreement").
Proof.
  exact (proj1 (getTypeLabel_is_idempotent (lit "nda"))
           (lit "Non-Disclosure Agreement") eq_refl).
Defined.

(** A risk level outside the four the views know makes the hero card fall
    back to gray and makes the badge of the risk card throw: the badge
    fails on exactly the levels the hero card paints gray. *)
Theorem badge_throws_where_hero_card_is_gray
    (d : RiskGauge.data) :
  ((exists e, RiskGauge.badge d = inl e)
   <-> AnalyzeView.getRiskColor (RiskGauge.risk_level d)
       = Some "from-gray-500 to-gray-600"%string)
  /\ (Literal.get AnalyzeView.colors (RiskGauge.risk_level d) = Literal.Absent ->
      RiskGauge.badge d = inl (Js.cannot_read "undefined" (lit "icon"))
      /\ RiskFactorList.getSeverityColor (RiskGauge.risk_level d)
         = "bg-blue-100 text-blue-800 border-blue-300"%string).
Proof.
  unfold RiskGauge.badge, RiskBadge.className, AnalyzeView.getRiskColor,
    RiskFactorList.getSeverityColor, Literal.get.
  unfold RiskBadge.configs, AnalyzeView.colors. cbn [Literal.own].
  destruct (JsString.eqb (RiskGauge.risk_level d) (lit "Critical")).
  { split; [split; [intros [e E]; discriminate E | discriminate] | discriminate]. }
  destruct (JsString.eqb (RiskGauge.risk_level d) (lit "High")).
  { split; [split; [intros [e E]; discriminate E | discriminate] | discriminate]. }
  destruct (JsString.eqb (RiskGauge.risk_level d) (lit "Medium")).
  { split; [split; [intros [e E]; discriminate E | discriminate] | discriminate]. }
  destruct (JsString.eqb (RiskGauge.risk_level d) (lit "Low")).
  { split; [split; [intros [e E]; discriminate E | discriminate] | discriminate]. }
  destruct (Literal.inherited (RiskGauge.risk_level d)).
  - split; [split; [intros [e E]; discriminate E | discriminate] | discriminate].
  - split; [split; [reflexivity | eexists; reflexivity] | split; reflexivity].
Qed.

(** ** What the page mounts *)

(** The "Advanced AI Features" of the upload section never render: that
    section is shown only while there is no result, and without a result
    there is neither a document id nor a clause group to show.  Once
    there is a result the clause groups are always shown, and the
    classification and the search only with a document id. *)
Theorem upload_section_never_shows_features (result : value) :
  AnalyzeView.features result
  = (if Js.truthy result then AnalyzeView.resultsSectionFeatures result else [])
  /\ In AnalyzeView.ClauseGroups (AnalyzeView.resultsSectionFeatures result)
  /\ (Js.truthy (AnalyzeView.documentId result) = false ->
      AnalyzeView.resultsSectionFeatures result = [AnalyzeView.ClauseGroups]).
Proof.
  split; [|split].
  - unfold AnalyzeView.features.
    destruct result as [| |b|n|s|items|fields]; try reflexivity.
    + destruct b; reflexivity.
    + destruct n as [q| | |]; try reflexivity.
      simpl. destruct (Qeq_bool q 0); reflexivity.
    + destruct s; reflexivity.
  - unfold AnalyzeView.resultsSectionFeatures.
    apply in_or_app. right. apply in_or_app. left. left. reflexivity.
  - intros F. unfold AnalyzeView.resultsSectionFeatures. rewrite F. reflexivity.
Qed.



(** ** Runs of the chat *)

Module TurnFacts.
Import Chatbot.

Lemma takesTurns_snoc (first : role) (l : list Message) (m : Message) :
  takesTurns first (l ++ [m])
  = takesTurns first l
    && sameRole (msg_role m) (if Nat.even (List.length l) then first else other first).
Proof.
  revert first; induction l as [|x l IH]; intros first.
  - simpl. rewrite andb_true_r. reflexivity.
  - cbn [app takesTurns List.length]. rewrite IH, Nat.even_succ, <- Nat.negb_even.
    rewrite <- andb_assoc. f_equal. f_equal.
    destruct (Nat.even (List.length l)); destruct first; reflexivity.
Qed.

Lemma countSent_sent w r : countSent (w ++ [Sent r]) = S (countSent w).
Proof. unfold countSent. rewrite filter_app, length_app. simpl. lia. Qed.

Lemma countSent_got w r a : countSent (w ++ [Got r a]) = countSent w.
Proof. unfold countSent. rewrite filter_app, length_app. simpl. lia. Qed.

Lemma countGot_sent w r : countGot (w ++ [Sent r]) = countGot w.
Proof. unfold countGot. rewrite filter_app, length_app. simpl. lia. Qed.

Lemma countGot_got w r a : countGot (w ++ [Got r a]) = S (countGot w).
Proof. unfold countGot. rewrite filter_app, length_app. simpl. lia. Qed.

Lemma chat_shape_mount c now : chat_shape c (mount (initial c now)).
Proof.
  split; [apply ChatFacts.chat_ok_mount|]. repeat split.
Qed.

Lemma chat_shape_step c p now e (b : browser state) :
  chat_shape c b -> chat_shape c (step (handler c p) now e b).
Proof.
  intros (K & T & P & C & S).
  split; [apply ChatFacts.chat_ok_step; exact K|].
  destruct e as [u|i answer].
  - destruct u as [q|q| | |]; try (simpl; repeat split; assumption).
    destruct (JsString.trim (input (view b))) as [|u0 rest] eqn:E.
    { rewrite ChatFacts.send_rejected by (left; exact E). repeat split; assumption. }
    destruct (loading (view b)) eqn:L.
    { rewrite ChatFacts.send_rejected by (right; exact L).
      rewrite L. repeat split; assumption. }
    rewrite ChatFacts.send_accepted by (rewrite ?E; congruence).
    cbn [view wire inflight setLoading setInput setMessages messages loading].
    rewrite takesTurns_snoc, T, <- Nat.negb_odd, P, !length_app,
      countSent_sent, countGot_sent.
    cbn [List.length negb]. rewrite Nat.add_1_r, Nat.odd_succ, <- Nat.negb_odd, P.
    repeat split; lia.
  - simpl. destruct K as [[L I]|[L [r I]]]; rewrite I.
    + destruct i; simpl; repeat split;
        first [assumption | rewrite I in *; simpl in *; lia].
    + destruct i as [|i]; simpl;
        [|destruct i; simpl; repeat split;
          first [assumption | rewrite I in *; simpl in *; lia]].
      destruct (ChatFacts.afterAsk_appends c now answer
                  {| view := view b; inflight := remove_nth 0 [(r, afterAsk c)];
                     wire := wire b ++ [Got r answer]; console := console b |})
        as (reply & E & R & _).
      rewrite E.
      cbn [view wire inflight setLoading setMessages messages loading remove_nth
           firstn skipn app].
      rewrite I in S. cbn [List.length] in S.
      rewrite takesTurns_snoc, T, R, <- Nat.negb_odd, P, L, !length_app,
        countSent_got, countGot_got.
      cbn [List.length negb]. rewrite Nat.add_1_r, Nat.odd_succ, <- Nat.negb_odd, P, L.
      repeat split; lia.
Qed.

Lemma chat_shape_exec c p trace (b : browser state) :
  chat_shape c b -> chat_shape c (exec (handler c p) trace b).
Proof.
  revert b; induction trace as [|[now e] trace IH]; intros b H; simpl; [exact H|].
  apply IH, chat_shape_step, H.
Qed.

End TurnFacts.

(** A chat component asks one question at a time, whatever the user and
    the network do: at most one request is outstanding, the pending flag
    is up exactly while one is, and every request sent so far has been
    answered except the outstanding one. *)
Theorem chat_asks_one_question_at_a_time
    (c : Chatbot.component) (p : Chatbot.props) (mounted : N)
    (trace : list (N * event Chatbot.ui)) :
  let b := exec (Chatbot.handler c p) trace (mount (Chatbot.initial c mounted)) in
  (List.length (inflight b) <= 1)%nat
  /\ (Chatbot.loading (view b) = true <-> inflight b <> [])
  /\ countSent (wire b) = (countGot (wire b) + List.length (inflight b))%nat.
Proof.
  intros b.
  destruct (@TurnFacts.chat_shape_exec c p trace _ (TurnFacts.chat_shape_mount c mounted))
    as (K & _ & _ & _ & S).
  fold b in K, S.
  split; [|split; [|exact S]].
  - destruct K as [[_ I]|[_ [r I]]]; rewrite I; simpl; lia.
  - destruct K as [[L I]|[L [r I]]]; rewrite I, L; split;
      try discriminate; try reflexivity.
    intros H. destruct (H eq_refl).
Qed.

(** The history of a chat is the greeting followed by questions and
    replies in turn: the speakers alternate from the assistant on, the
    last message is the user's exactly while an ask is pending, and the
    history holds one message per request sent and one per reply
    received, after the greeting. *)
Theorem chat_history_takes_turns
    (c : Chatbot.component) (p : Chatbot.props) (mounted : N)
    (trace : list (N * event Chatbot.ui)) :
  let b := exec (Chatbot.handler c p) trace (mount (Chatbot.initial c mounted)) in
  takesTurns Chatbot.assistant (Chatbot.messages (view b)) = true
  /\ Nat.odd (List.length (Chatbot.messages (view b)))
     = negb (Chatbot.loading (view b))
  /\ (exists earlier m,
        Chatbot.messages (view b) = earlier ++ [m]
        /\ Chatbot.msg_role m
           = (if Chatbot.loading (view b) then Chatbot.user else Chatbot.assistant))
  /\ List.length (Chatbot.messages (view b))
     = (1 + countSent (wire b) + countGot (wire b))%nat.
Proof.
  intros b.
  destruct (@TurnFacts.chat_shape_exec c p trace _ (TurnFacts.chat_shape_mount c mounted))
    as (_ & T & P & C & _).
  fold b in T, P, C.
  split; [exact T|]. split; [exact P|]. split; [|exact C].
  destruct (Chatbot.messages (view b)) as [|m l] using rev_ind;
    [simpl in C; discriminate C|].
  clear IHl. exists l, m. split; [reflexivity|].
  rewrite TurnFacts.takesTurns_snoc in T. apply andb_true_iff in T.
  destruct T as [_ T]. rewrite length_app in P. cbn [List.length] in P.
  rewrite Nat.add_1_r, Nat.odd_succ in P. rewrite P in T.
  destruct (Chatbot.loading (view b)), (Chatbot.msg_role m);
    try discriminate T; reflexivity.
Qed.

(** ** Runs of the analysis page *)

Module PhaseFacts.
Import AnalyzePage.

Lemma afterAnalyze_settles now (analyzeRes : reply) (b : browser state) :
  uploading (view b) = false ->
  uploading (view (run now (afterAnalyze analyzeRes) b)) = false
  /\ analyzing (view (run now (afterAnalyze analyzeRes) b)) = false.
Proof.
  intros U. destruct analyzeRes as [e|r]; simpl; [split; reflexivity|].
  destruct (ok r); simpl; [|split; reflexivity].
  destruct (json r); simpl; split; try reflexivity. exact U.
Qed.

Lemma page_phase_step now e (b : browser state) :
  page_phase b ->
  match e with User u => enabled u (view b) = true | Network _ _ => True end ->
  page_phase (step handler now e b).
Proof.
  intros Ph En. destruct e as [u|i answer].
  - destruct u as [files| |].
    + simpl. destruct files; simpl; exact Ph.
    + simpl in En. apply andb_true_iff in En. destruct En as [En Busy].
      apply andb_true_iff in En. destruct En as [_ F].
      apply negb_true_iff, orb_false_iff in Busy. destruct Busy as [U A].
      destruct Ph as [(_ & _ & I)|[(U' & _)|(_ & A' & _)]]; [|congruence|congruence].
      unfold step, handler, handleUploadAndAnalyze.
      destruct (file (view b)) as [f|]; [|discriminate F]. simpl.
      right. left. repeat split. exists f. rewrite I. reflexivity.
    + simpl. exact Ph.
  - simpl. destruct Ph as [(U & A & I)|[(U & A & f & I)|(U & A & id & I)]]; rewrite I.
    + destruct i; simpl; left; repeat split; assumption.
    + destruct i as [|i]; simpl;
        [|destruct i; simpl; right; left;
          (repeat split; [assumption | assumption | exists f; exact I])].
      destruct (uploadedDocument answer) as [document_id|] eqn:D.
      * rewrite (@PageFacts.afterUpload_success now answer _ document_id D). simpl.
        right. right. repeat split; [exact A|]. exists document_id. reflexivity.
      * destruct (@PageFacts.afterUpload_failure now answer
                    {| view := view b; inflight := remove_nth 0 [(PostUpload f, afterUpload)];
                       wire := wire b ++ [Got (PostUpload f) answer];
                       console := console b |} D) as (Ei & _ & Eu & Ea & _).
        left. repeat split; [exact Eu | exact Ea | rewrite Ei; reflexivity].
    + destruct i as [|i]; simpl;
        [|destruct i; simpl; right; right;
          (repeat split; [assumption | assumption | exists id; exact I])].
      destruct (@afterAnalyze_settles now answer
                  {| view := view b;
                     inflight := remove_nth 0 [(PostAnalyze id, afterAnalyze)];
                     wire := wire b ++ [Got (PostAnalyze id) answer];
                     console := console b |} U) as (Eu & Ea).
      destruct (PageFacts.afterAnalyze_quiet now answer
                  {| view := view b;
                     inflight := remove_nth 0 [(PostAnalyze id, afterAnalyze)];
                     wire := wire b ++ [Got (PostAnalyze id) answer];
                     console := console b |}) as (Ei & _).
      left. repeat split; [exact Eu | exact Ea | rewrite Ei; reflexivity].
Qed.

Lemma page_phase_offered trace (b : browser state) :
  page_phase b -> offered handler enabled trace b ->
  page_phase (exec handler trace b).
Proof.
  revert b; induction trace as [|[now e] trace IH]; intros b Ph O; simpl; [exact Ph|].
  destruct O as [En O]. apply IH; [|exact O]. apply page_phase_step; assumption.
Qed.

Lemma result_step now e (b : browser state) :
  page_ok b -> result_from_analysis b ->
  result_from_analysis (step handler now e b).
Proof.
  intros [_ F] R.
  assert (Keep : forall b' : browser state,
             result (view b') = result (view b) ->
             (exists extra, wire b' = wire b ++ extra) ->
             result_from_analysis b').
  { intros b' Er [extra Ew]. destruct R as [R|(id & resp & I & K & J)].
    - left. congruence.
    - right. exists id, resp. rewrite Er, Ew. repeat split; try assumption.
      apply in_or_app. left. exact I. }
  destruct e as [u|i answer].
  - destruct u as [files| |].
    + apply Keep; [|exists []; rewrite app_nil_r; simpl; destruct files; reflexivity].
      simpl. destruct files; reflexivity.
    + unfold step, handler, handleUploadAndAnalyze.
      destruct (file (view b)); simpl.
      * apply Keep; [reflexivity | eexists; reflexivity].
      * apply Keep; [reflexivity | exists []; rewrite app_nil_r; reflexivity].
    + left. reflexivity.
  - simpl. destruct (nth_error (inflight b) i) as [[r k]|] eqn:N; [|exact R].
    pose proof (nth_error_In _ _ N) as I.
    rewrite Forall_forall in F. destruct (F _ I) as [_ K].
    destruct K as [[f [= -> ->]]|[document_id [= -> ->]]].
    + destruct (uploadedDocument answer) as [document_id|] eqn:D.
      * rewrite (@PageFacts.afterUpload_success now answer _ document_id D).
        apply Keep; [reflexivity|]. simpl. rewrite <- app_assoc. eexists. reflexivity.
      * destruct (@PageFacts.afterUpload_failure now answer
                    {| view := view b; inflight := remove_nth i (inflight b);
                       wire := wire b ++ [Got (PostUpload f) answer];
                       console := console b |} D) as (_ & Ew & _ & _ & Er).
        apply Keep; [exact Er | rewrite Ew; eexists; reflexivity].
    + destruct answer as [e|resp]; simpl;
        [apply Keep; [reflexivity | eexists; reflexivity]|].
      destruct (ok resp) eqn:K; simpl;
        [|apply Keep; [reflexivity | eexists; reflexivity]].
      destruct (json resp) as [e|analyzeData] eqn:J; simpl;
        [apply Keep; [reflexivity | eexists; reflexivity]|].
      right. exists document_id, resp. simpl. repeat split; [|exact K|exact J].
      apply in_or_app. right. left. reflexivity.
Qed.

Lemma result_exec trace (b : browser state) :
  page_ok b -> result_from_analysis b ->
  result_from_analysis (exec handler trace b).
Proof.
  revert b; induction trace as [|[now e] trace IH]; intros b K R; simpl; [exact R|].
  apply IH; [apply PageFacts.page_ok_step; exact K | apply result_step; assumption].
Qed.

End PhaseFacts.

(** Through the page as rendered one workflow runs at a time, and the two
    flags tell its phase: both up while the upload is awaited, only
    [analyzing] while the analysis is awaited, both down otherwise, with
    exactly the matching request outstanding. *)
Theorem page_runs_one_workflow_at_a_time
    (trace : list (N * event AnalyzePage.ui)) :
  offered AnalyzePage.handler AnalyzePage.enabled trace (mount AnalyzePage.initial) ->
  let b := exec AnalyzePage.handler trace (mount AnalyzePage.initial) in
  page_phase b /\ (List.length (inflight b) <= 1)%nat.
Proof.
  intros O b.
  assert (Ph : page_phase b).
  { apply PhaseFacts.page_phase_offered; [|exact O]. left. repeat split. }
  split; [exact Ph|].
  destruct Ph as [(_ & _ & I)|[(_ & _ & f & I)|(_ & _ & id & I)]];
    rewrite I; simpl; lia.
Qed.

Lemma page_runs_one_workflow_at_a_time_witness :
  page_phase
    (exec AnalyzePage.handler
       [ (1%N, User (AnalyzePage.ChooseFile [sampleFile]));
         (2%N, User AnalyzePage.ClickAnalyze);
         (3%N, Network 0 (Fulfilled uploaded)) ]
       (mount AnalyzePage.initial)).
Proof.
  refine (proj1 (@page_runs_one_workflow_at_a_time
                   [ (1%N, User (AnalyzePage.ChooseFile [sampleFile]));
                     (2%N, User AnalyzePage.ClickAnalyze);
                     (3%N, Network 0 (Fulfilled uploaded)) ] _)).
  simpl. repeat split; reflexivity.
Defined.

(** Whatever the user and the network do, the result the page holds is
    either none or the parsed body of an analyze response that was 2xx:
    nothing else ever becomes the result. *)
Theorem result_comes_from_a_successful_analysis
    (trace : list (N * event AnalyzePage.ui)) :
  result_from_analysis (exec AnalyzePage.handler trace (mount AnalyzePage.initial)).
Proof.
  apply PhaseFacts.result_exec; [apply PageFacts.page_ok_mount | left; reflexivity].
Qed.

(** ** Failures and the example buttons of the search *)

(** A search that fails, by a rejected request or a body that is not
    JSON, is local: the result and the query stay as they were, the
    loading flag drops, and the error goes to the console once.  The
    classification and the comparison fail the same way. *)
Theorem fetch_failures_are_local (answer : reply) (e : js_error) :
  failure answer = Some e ->
  (forall documentId trace (i : nat) now,
     let b := exec (SemanticClauseSearch.handler documentId) trace
                (mount SemanticClauseSearch.initial) in
     let b' := step (SemanticClauseSearch.handler documentId) now
                 (Network i answer) b in
     (i < List.length (inflight b))%nat ->
     SemanticClauseSearch.results (view b') = SemanticClauseSearch.results (view b)
     /\ SemanticClauseSearch.searchQuery (view b')
        = SemanticClauseSearch.searchQuery (view b)
     /\ SemanticClauseSearch.loading (view b') = false
     /\ console b' = console b ++ [("Search error:"%string, e)]
     /\ inflight b' = remove_nth i (inflight b)
     /\ countSent (wire b') = countSent (wire b))
  /\ (forall now (b : browser DocumentClassification.state),
        let b' := run now (DocumentClassification.afterClassify answer) b in
        DocumentClassification.classification (view b')
        = DocumentClassification.classification (view b)
        /\ DocumentClassification.loading (view b') = false
        /\ console b' = console b ++ [("Classification error:"%string, e)]
        /\ wire b' = wire b)
  /\ (forall now (b : browser Comparison.state),
        let b' := run now (Comparison.afterCompare answer) b in
        Comparison.comparison (view b') = Comparison.comparison (view b)
        /\ Comparison.loading (view b') = false
        /\ console b' = console b ++ [("Comparison error:"%string, e)]
        /\ wire b' = wire b).
Proof.
  intros Fa. split; [|split].
  - intros documentId trace i now b b' L.
    assert (A : all_searches b) by (apply SearchFacts.all_searches_exec; constructor).
    destruct (nth_error (inflight b) i) as [[r k]|] eqn:N;
      [|apply nth_error_None in N; lia].
    pose proof (nth_error_In _ _ N) as I.
    unfold all_searches in A. rewrite Forall_forall in A.
    pose proof (A _ I) as K. simpl in K. subst k.
    unfold b', step. rewrite N.
    destruct answer as [e'|resp]; simpl in Fa.
    + injection Fa as ->. simpl. rewrite TurnFacts.countSent_got. repeat split.
    + unfold SemanticClauseSearch.afterSearch.
      destruct (json resp) as [e'|data]; [|discriminate Fa].
      injection Fa as ->. simpl. rewrite TurnFacts.countSent_got. repeat split.
  - intros now b b'. unfold b', DocumentClassification.afterClassify.
    destruct answer as [e'|resp]; simpl in Fa.
    + injection Fa as ->. repeat split.
    + destruct (json resp) as [e'|data]; [|discriminate Fa].
      injection Fa as ->. repeat split.
  - intros now b b'. unfold b', Comparison.afterCompare.
    destruct answer as [e'|resp]; simpl in Fa.
    + injection Fa as ->. repeat split.
    + destruct (json resp) as [e'|data]; [|discriminate Fa].
      injection Fa as ->. repeat split.
Qed.

Lemma fetch_failures_are_local_witness :
  let b := run 1%N (DocumentClassification.afterClassify (Fulfilled tooLarge))
             (mount DocumentClassification.initial) in
  DocumentClassification.classification (view b) = Null
  /\ console b = [("Classification error:"%string, Error (lit "Unexpected token 'F'"))].
Proof.
  destruct (proj1 (proj2 (@fetch_failures_are_local (Fulfilled tooLarge)
                            (Error (lit "Unexpected token 'F'")) eq_refl))
              1%N (mount DocumentClassification.initial))
    as (C & _ & K & _).
  split; [exact C | exact K].
Defined.

(** An example button puts its text into the box and runs the search of
    the render it was clicked in: the request, if any, carries the text
    the box held before the click, and on a blank box nothing is sent. *)
Theorem example_button_searches_previous_text
    (documentId : js_string) (now : N) (example : js_string)
    (b : browser SemanticClauseSearch.state) :
  let b' := step (SemanticClauseSearch.handler documentId) now
              (User (SemanticClauseSearch.ClickExample example)) b in
  let previous := SemanticClauseSearch.searchQuery (view b) in
  SemanticClauseSearch.searchQuery (view b') = example
  /\ SemanticClauseSearch.results (view b') = SemanticClauseSearch.results (view b)
  /\ (JsString.trim previous = [] ->
      wire b' = wire b /\ inflight b' = inflight b
      /\ SemanticClauseSearch.loading (view b') = SemanticClauseSearch.loading (view b))
  /\ (JsString.trim previous <> [] ->
      wire b' = wire b ++ [Sent (PostSimilarClauses documentId previous)]
      /\ SemanticClauseSearch.loading (view b') = true)
  /\ (SemanticClauseSearch.enabled (SemanticClauseSearch.ClickExample example)
        (view (mount SemanticClauseSearch.initial)) = true
      /\ wire (step (SemanticClauseSearch.handler documentId) now
                 (User (SemanticClauseSearch.ClickExample example))
                 (mount SemanticClauseSearch.initial)) = []).
Proof.
  intros b' previous. unfold b', previous, step, SemanticClauseSearch.handler,
    SemanticClauseSearch.handleSearch.
  destruct (JsString.trim (SemanticClauseSearch.searchQuery (view b))) as [|u rest] eqn:T;
    simpl; (split; [reflexivity|]); (split; [reflexivity|]);
    (split; [|split]).
  - intros _. repeat split.
  - intros Filled. destruct (Filled eq_refl).
  - split; reflexivity.
  - intros Blank. discriminate Blank.
  - intros _. split; reflexivity.
  - split; reflexivity.
Qed.

(* ================================================================== *)
(** * Sample runs *)

(** Upload, then analyze under the id the upload returned. *)
Example workflow_happy_path :
  let b := exec AnalyzePage.handler
             [ (1%N, User (AnalyzePage.ChooseFile [sampleFile]));
               (2%N, User AnalyzePage.ClickAnalyze);
               (3%N, Network 0 (Fulfilled uploaded));
               (4%N, Network 0 (Fulfilled analyzed)) ]
             (mount AnalyzePage.initial) in
  wire b = [ Sent (PostUpload sampleFile);
             Got (PostUpload sampleFile) (Fulfilled uploaded);
             Sent (PostAnalyze (Str (lit "doc-001")));
             Got (PostAnalyze (Str (lit "doc-001"))) (Fulfilled analyzed) ]
  /\ AnalyzePage.result (view b)
     = Obj [ (lit "document_id", Str (lit "doc-001")); (lit "analysis", Obj []) ]
  /\ AnalyzePage.uploading (view b) = false
  /\ AnalyzePage.analyzing (view b) = false
  /\ AnalyzePage.error (view b) = [].
Proof. repeat split. Qed.

(** A rejected upload ends the workflow with one request on the wire. *)
Example workflow_upload_refused :
  let b := exec AnalyzePage.handler
             [ (1%N, User (AnalyzePage.ChooseFile [sampleFile]));
               (2%N, User AnalyzePage.ClickAnalyze);
               (3%N, Network 0 (Fulfilled tooLarge)) ]
             (mount AnalyzePage.initial) in
  wire b = [ Sent (PostUpload sampleFile);
             Got (PostUpload sampleFile) (Fulfilled tooLarge) ]
  /\ inflight b = []
  /\ AnalyzePage.result (view b) = Null
  /\ AnalyzePage.error (view b) = lit "Upload failed".
Proof. repeat split. Qed.

(** An example button fills the box but searches with the query of the
    render it was clicked in: on a fresh box nothing is sent. *)
Example example_button_uses_stale_query :
  step (SemanticClauseSearch.handler (lit "doc-001")) 1%N
    (User (SemanticClauseSearch.ClickExample (lit "termination conditions")))
    (mount SemanticClauseSearch.initial)
  = mount (SemanticClauseSearch.setSearchQuery (lit "termination conditions")
             SemanticClauseSearch.initial).
Proof. reflexivity. Qed.

Example classification_rows_sample :
  DocumentClassification.rows
    (parsedScores [ (lit "nda", 1 # 10); (lit "lease_agreement", 7 # 10);
                    (lit "service_agreement", 7 # 10);
                    (lit "employment_contract", 9 # 10) ])
  = parsedScores [ (lit "employment_contract", 9 # 10);
                   (lit "lease_agreement", 7 # 10);
                   (lit "service_agreement", 7 # 10); (lit "nda", 1 # 10) ].
Proof. reflexivity. Qed.

Example percentage_sample :
  RiskHeatmap.getPercentage
    {| RiskHeatmap.Critical := Number.Fin 1; RiskHeatmap.High := Number.Fin 1;
       RiskHeatmap.Medium := Number.Fin 2; RiskHeatmap.Low := Number.Fin 0 |}
    (Number.Fin 2)
  = Number.Fin (2 / (1 + 1 + 2 + 0) * 100)
  /\ RiskHeatmap.getPercentage (RiskHeatmap.matrix None) (Number.Fin 0) = Number.Fin 0.
Proof. split; reflexivity. Qed.

(** A non-2xx reply that carries an answer is shown as the answer. *)
Example chat_shows_answer_of_refusal :
  map Chatbot.content
    (Chatbot.messages
       (view (exec (Chatbot.handler Chatbot.DocumentChatbot sampleProps)
                [ (1%N, User (Chatbot.TypeInput (lit "Who may terminate?")));
                  (2%N, User Chatbot.Send);
                  (3%N, Network 0 (Fulfilled refusal)) ]
                (mount (Chatbot.initial Chatbot.DocumentChatbot 0%N)))))
  = [ Str (Chatbot.greeting Chatbot.DocumentChatbot);
      Str (lit "Who may terminate?");
      Str (lit "Service unavailable") ].
Proof. reflexivity. Qed.
